(** * Login lockout and signup validation of the auth routes

    A shallow embedding of [routes/auth.routes.js] and of the User
    model ([userSchema.methods.isLocked]).  The route handlers are
    written in a small monad that threads what the JavaScript code
    reaches through [req], [res], [next], [Date.now] and the mongoose
    model: the users collection, the response object, the clock and a
    chronological log of the calls made to the libraries. *)

From Stdlib Require Import ZArith List String Ascii Bool Lia.
Import ListNotations.
Local Open Scope string_scope.
Local Open Scope Z_scope.

(** ** Data model *)

(** A document of the users collection ([userSchema]).  [lockUntil] has
    schema type Date with default null: [None] is null, [Some t] is a
    Date whose time value is [t] milliseconds.  A Date object is truthy
    whatever its time value, and compares with a number through that
    value.  [failedLoginAttempts] is a Number holding an integer. *)
Record User := mkUser {
  _id : string;
  email : string;
  password : string;
  name : string;
  failedLoginAttempts : Z;
  lockUntil : option Z
}.

Definition set_failedLoginAttempts (n : Z) (u : User) : User :=
  mkUser (_id u) (email u) (password u) (name u) n (lockUntil u).

Definition set_lockUntil (l : option Z) (u : User) : User :=
  mkUser (_id u) (email u) (password u) (name u) (failedLoginAttempts u) l.

(** [user.password], [user.email] and [user.name] under names that the
    handlers' own [password], [email] and [name] do not hide. *)
Definition user_password (u : User) : string := password u.
Definition user_email (u : User) : string := email u.
Definition user_name (u : User) : string := name u.

(** [req.body]: a field that the request leaves out is [undefined],
    here [None]; [Some ""] is the empty string. *)
Record Body := mkBody {
  body_email : option string;
  body_password : option string;
  body_name : option string
}.

(** The token payload [{ _id, email, name }]. *)
Record Payload := mkPayload {
  p_id : string;
  p_email : string;
  p_name : string
}.

(** The objects handed to [res.json]. *)
Inductive Json :=
| Message (message : string)
| AuthToken (authToken : string)
| CreatedUser (email name _id : string).    (* { user: { email, name, _id } } *)

Record Response := mkResponse {
  status : Z;
  json : Json
}.

(** What can be thrown, or reject a promise, inside the handlers. *)
Inductive Error :=
| ERR_HTTP_HEADERS_SENT   (* a second res.json once the response is out *)
| BcryptArgumentError     (* bcrypt.compareSync without its data argument *)
| StoreError              (* a rejected mongoose promise *)
| ValidationError         (* a required path without a value *)
| TypeError.              (* destructuring undefined *)

(** The calls a handler makes, in the order it makes them. *)
Inductive Event :=
| EvFindOne (query : option string)
| EvCompare (data hash : string)
| EvSave (doc : User) (resolved : bool)
| EvHash (data salt : string)
| EvCreate (email password : string) (name : option string)
| EvSign (payload : Payload)
| EvJson (code : Z) (body : Json)
| EvNext (err : Error).

(** What one request meets outside the handler: the successive values
    of [Date.now()], whether the store rejects the query, the save or
    the insertion, and the salt and the [_id] that bcrypt and mongoose
    draw for a new account. *)
Record Env := mkEnv {
  clock : nat -> Z;
  findOneRejects : bool;
  saveRejects : bool;
  createRejects : bool;
  salt : string;
  freshId : string
}.

(** The state a handler acts on.  [sent] is the response that went out
    (Express writes the first [res.json] to the socket and ends it),
    [passed] the error given to [next]. *)
Record State := mkState {
  db : list User;
  ticks : nat;
  sent : option Response;
  passed : option Error;
  calls : list Event
}.

Definition initState (docs : list User) : State :=
  mkState docs 0 None None [].

Definition log (e : Event) (s : State) : State :=
  mkState (db s) (ticks s) (sent s) (passed s) (calls s ++ [e]).

(** ** The handler monad: reader of [Env], state, exceptions.
    A throw keeps the state reached so far, as in JavaScript. *)
Inductive Result (A : Type) :=
| Ok (a : A)
| Throw (e : Error).
Arguments Ok {A} a.
Arguments Throw {A} e.

Definition M (A : Type) : Type := Env -> State -> Result A * State.

Definition ret {A} (a : A) : M A := fun _ s => (Ok a, s).

Definition bind {A B} (c : M A) (k : A -> M B) : M B :=
  fun env s =>
    match c env s with
    | (Ok a, s') => k a env s'
    | (Throw e, s') => (Throw e, s')
    end.

Definition throw {A} (e : Error) : M A := fun _ s => (Throw e, s).

(** [promise.catch(handler)] *)
Definition catch {A} (c : M A) (h : Error -> M A) : M A :=
  fun env s =>
    match c env s with
    | (Ok a, s') => (Ok a, s')
    | (Throw e, s') => h e env s'
    end.

Notation "x <- c1 ;; c2" := (bind c1 (fun x => c2))
  (at level 61, c1 at next level, right associativity).
Notation "c1 ;; c2" := (bind c1 (fun _ => c2))
  (at level 61, right associativity).

(** ** The collection *)

Definition findDoc (e : string) (docs : list User) : option User :=
  find (fun d => String.eqb (email d) e) docs.

(** [doc.save()] of a document that was read from the collection
    updates the stored document with the same [_id]. *)
Definition saveDoc (u : User) (docs : list User) : list User :=
  map (fun d => if String.eqb (_id d) (_id u) then u else d) docs.

(** ** Regular expressions

    The fragment of JavaScript regular expressions that the two
    patterns of the signup handler use, with a backtracking matcher in
    continuation-passing style.  A character of the subject is one
    code unit; [ascii] holds the code units below 256, and none above
    belongs to a class written in [passwordRegex]. *)
Inductive Regex :=
| Cls (p : ascii -> bool)        (* one character of a class *)
| Star (p : ascii -> bool)       (* class*, greedy *)
| Seq (a b : Regex)
| Look (a : Regex)               (* (?=a) *)
| Eos.                           (* $ without the m flag *)

(** class* then the continuation: the longest run first, then shorter. *)
Fixpoint star (p : ascii -> bool) (k : string -> bool) (s : string) : bool :=
  match s with
  | String c s' => (p c && star p k s') || k s
  | EmptyString => k s
  end.

Fixpoint matchFrom (r : Regex) (s : string) (k : string -> bool) : bool :=
  match r with
  | Cls p =>
      match s with
      | String c s' => p c && k s'
      | EmptyString => false
      end
  | Star p => star p k s
  | Seq a b => matchFrom a s (fun s' => matchFrom b s' k)
  | Look a => matchFrom a s (fun _ => true) && k s
  | Eos =>
      match s with
      | EmptyString => k s
      | String _ _ => false
      end
  end.

(** class{n,} *)
Fixpoint atLeast (n : nat) (p : ascii -> bool) : Regex :=
  match n with
  | O => Star p
  | S n' => Seq (Cls p) (atLeast n' p)
  end.

(** class+ *)
Definition plus (p : ascii -> bool) : Regex := atLeast 1 p.

(** [regex.test(s)] for a pattern that opens with [^] and has no
    flags: the only match that can succeed starts at index 0. *)
Definition test (r : Regex) (s : string) : bool :=
  matchFrom r s (fun _ => true).

Definition code (c : ascii) : N := N_of_ascii c.
Definition between (lo hi : N) (c : ascii) : bool :=
  (lo <=? code c)%N && (code c <=? hi)%N.
Definition oneOf (l : list N) (c : ascii) : bool :=
  existsb (N.eqb (code c)) l.

(** [[a-z]], [[A-Z]], [\d], [[@$!%*?&]] *)
Definition lower : ascii -> bool := between 97 122.
Definition upper : ascii -> bool := between 65 90.
Definition digit : ascii -> bool := between 48 57.
Definition symbol : ascii -> bool := oneOf [64; 36; 33; 37; 42; 63; 38]%N.

(** [.]: anything but a line terminator *)
Definition dot (c : ascii) : bool := negb (oneOf [10; 13]%N c).

(** [\s] on code units below 256, and [[^\s@]] *)
Definition space : ascii -> bool := oneOf [9; 10; 11; 12; 13; 32; 160]%N.
Definition notSpaceAt (c : ascii) : bool := negb (space c || oneOf [64]%N c).

(** [[A-Za-z\d@$!%*?&]] *)
Definition passwordChar (c : ascii) : bool :=
  upper c || lower c || digit c || symbol c.

(** [/^[^\s@]+@[^\s@]+\.[^\s@]{2,}$/] *)
Definition emailRegex : Regex :=
  Seq (plus notSpaceAt)
   (Seq (Cls (oneOf [64]%N))
     (Seq (plus notSpaceAt)
       (Seq (Cls (oneOf [46]%N))
         (Seq (atLeast 2 notSpaceAt) Eos)))).

(** [/^(?=.*[a-z])(?=.*[A-Z])(?=.*\d)(?=.*[@$!%*?&])[A-Za-z\d@$!%*?&]{8,}$/] *)
Definition passwordRegex : Regex :=
  Seq (Look (Seq (Star dot) (Cls lower)))
   (Seq (Look (Seq (Star dot) (Cls upper)))
     (Seq (Look (Seq (Star dot) (Cls digit)))
       (Seq (Look (Seq (Star dot) (Cls symbol)))
         (Seq (atLeast 8 passwordChar) Eos)))).

(** The rule for passwords in the words of the specification: at least
    8 characters, with at least one lowercase letter, one uppercase
    letter, one digit and one symbol of the set.  It is compared with
    [passwordRegex] below. *)
Definition specPasswordRule (pw : string) : bool :=
  (8 <=? String.length pw)%nat
  && existsb lower (list_ascii_of_string pw)
  && existsb upper (list_ascii_of_string pw)
  && existsb digit (list_ascii_of_string pw)
  && existsb symbol (list_ascii_of_string pw).

(** The string that [regex.test] makes of its argument. *)
Definition toString (v : option string) : string :=
  match v with
  | Some s => s
  | None => "undefined"
  end.

(** [v === ""] *)
Definition isEmptyString (v : option string) : bool :=
  match v with
  | Some "" => true
  | _ => false
  end.

(** ** Sample data, for the closed statements at the end *)

Definition toyCompare (data hash : string) : bool :=
  String.eqb ("bcrypt:" ++ data) hash.
Definition toyHash (data salt : string) : string := "bcrypt:" ++ data.
Definition toySign (p : Payload) : string := "jwt:" ++ p_id p.
Definition noCast (e : string) : string := e.

Definition alice : User :=
  mkUser "id1" "user@x.com" "bcrypt:Secret1!x" "Alice" 0 None.

(** A request that finds the clock at [t] and the store in order, and
    one whose save is rejected. *)
Definition envAt (t : Z) : Env :=
  mkEnv (fun _ => t) false false false "salt" "id2".
Definition envSaveFails (t : Z) : Env :=
  mkEnv (fun _ => t) false true false "salt" "id2".

Definition loginBody (e p : string) : Body := mkBody (Some e) (Some p) None.

Section Auth.

(** The libraries.  [compareSync data hash] is bcrypt's verdict on two
    strings and [hashSync data salt] its hash; [jwt_sign payload] is the token [jwt.sign] mints for the
    payload with [process.env.TOKEN_SECRET], HS256 and a six hour
    expiry (a secret is configured); [castEmail] is the cast that
    mongoose applies to a string queried on the [email] path
    ([lowercase], [trim]). *)
Variable compareSync : string -> string -> bool.
Variable hashSync : string -> string -> string.
Variable jwt_sign : Payload -> string.
Variable castEmail : string -> string.

(** ** Primitives *)

(** [Date.now()] *)
Definition Date_now : M Z :=
  fun env s =>
    (Ok (clock env (ticks s)),
     mkState (db s) (S (ticks s)) (sent s) (passed s) (calls s)).

(** [res.status(code).json(body)].  The first call writes the response;
    once the headers are out a further call throws. *)
Definition res_json (code : Z) (body : Json) : M unit :=
  fun _ s =>
    let s := log (EvJson code body) s in
    match sent s with
    | None =>
        (Ok tt, mkState (db s) (ticks s) (Some (mkResponse code body))
                        (passed s) (calls s))
    | Some _ => (Throw ERR_HTTP_HEADERS_SENT, s)
    end.

(** [next(err)] *)
Definition next (err : Error) : M unit :=
  fun _ s =>
    let s := log (EvNext err) s in
    (Ok tt, mkState (db s) (ticks s) (sent s) (Some err) (calls s)).

(** [User.findOne({ email })].  An [undefined] email is queried as
    null, which no document matches since [email] is required. *)
Definition User_findOne (query : option string) : M (option User) :=
  fun env s =>
    let s := log (EvFindOne query) s in
    if findOneRejects env then (Throw StoreError, s)
    else
      (Ok (match query with
           | Some e => findDoc (castEmail e) (db s)
           | None => None
           end), s).

(** [user.save()] as the handlers call it: the promise is dropped, so
    a rejection reaches nobody; a save that resolves has written the
    document. *)
Definition user_save (user : User) : M unit :=
  fun env s =>
    let s := log (EvSave user (negb (saveRejects env))) s in
    if saveRejects env then (Ok tt, s)
    else
      (Ok tt, mkState (saveDoc user (db s)) (ticks s) (sent s)
                      (passed s) (calls s)).

(** [bcrypt.compareSync(password, user.password)]; it throws when the
    data argument is undefined. *)
Definition bcrypt_compareSync (data : option string) (hash : string) : M bool :=
  match data with
  | None => throw BcryptArgumentError
  | Some d => fun _ s => (Ok (compareSync d hash), log (EvCompare d hash) s)
  end.

(** [bcrypt.hashSync(password, bcrypt.genSaltSync(saltRounds))] *)
Definition bcrypt_hashSync (data : string) : M string :=
  fun env s =>
    (Ok (hashSync data (salt env)), log (EvHash data (salt env)) s).

(** [User.create({ email, password, name })]: [name] is required, the
    email is stored as the schema casts it, the counters take their
    defaults. *)
Definition User_create (email password : string) (name : option string) : M User :=
  fun env s =>
    let s := log (EvCreate email password name) s in
    match name with
    | None => (Throw ValidationError, s)
    | Some n =>
        if createRejects env then (Throw StoreError, s)
        else
          let doc := mkUser (freshId env) (castEmail email) password n 0 None in
          (Ok doc, mkState (db s ++ [doc]) (ticks s) (sent s)
                           (passed s) (calls s))
    end.

(** [jwt.sign(payload, process.env.TOKEN_SECRET, ...)] *)
Definition jwt_sign_call (payload : Payload) : M string :=
  fun _ s => (Ok (jwt_sign payload), log (EvSign payload) s).

(** ** The User model *)

(** [userSchema.methods.isLocked]:
    [!!(this.lockUntil && this.lockUntil > Date.now())].
    A null [lockUntil] short-circuits before the clock is read. *)
Definition isLocked (this : User) : M bool :=
  match lockUntil this with
  | None => ret false
  | Some l => now <- Date_now ;; ret (l >? now)
  end.

(** ** POST /auth/login *)

Definition MAX_LOGIN_ATTEMPTS : Z := 10.
Definition LOCK_TIME : Z := 5 * 60 * 1000.

(** Lines 107-110 of the handler:
    [if (user.lockUntil !== null && Date.now() > user.lockUntil)]. *)
Definition staleLockReset (user : User) : M User :=
  match lockUntil user with
  | None => ret user
  | Some l =>
      now <- Date_now ;;
      if now >? l
      then ret (set_lockUntil None (set_failedLoginAttempts 0 user))
      else ret user
  end.

(** The callback given to [.then] after [User.findOne]. *)
Definition loginThen (password : option string) (found : option User) : M unit :=
  match found with
  | None => res_json 401 (Message "User not found.")
  | Some user =>
      locked <- isLocked user ;;
      if locked
      then res_json 423 (Message "Account locked. Please try again later.")
      else
        user <- staleLockReset user ;;
        passwordCorrect <- bcrypt_compareSync password (user_password user) ;;
        if passwordCorrect then
          let payload := mkPayload (_id user) (email user) (name user) in
          let user := set_failedLoginAttempts 0 user in
          let user := set_lockUntil None user in
          user_save user ;;
          authToken <- jwt_sign_call payload ;;
          res_json 200 (AuthToken authToken)
        else
          res_json 401
            (Message "Please try again, the email and password did not matched") ;;
          let user :=
            set_failedLoginAttempts (failedLoginAttempts user + 1) user in
          user <- (if failedLoginAttempts user >=? MAX_LOGIN_ATTEMPTS
                   then now <- Date_now ;;
                        ret (set_lockUntil (Some (now + LOCK_TIME)) user)
                   else ret user) ;;
          user_save user ;;
          locked <- isLocked user ;;
          if locked
          then res_json 423
                 (Message "Account locked due to too many failed login attempts. Please try again later.")
          else res_json 401 (Message "Invalid username or password")
  end.

(** [router.post("/login", (req, res, next) => ...)] *)
Definition login (body : Body) : M unit :=
  let email := body_email body in
  let password := body_password body in
  if isEmptyString email || isEmptyString password
  then res_json 400 (Message "Provide email and password.")
  else
    catch (user <- User_findOne email ;; loginThen password user)
          (fun err => next err).

(** One request from a fresh response object. *)
Definition handleLogin (env : Env) (body : Body) (docs : list User) : State :=
  snd (login body env (initState docs)).

(** ** POST /auth/signup *)

(** The first [.then] callback; [None] is the [undefined] that the bare
    [return] hands to the next callback. *)
Definition signupThen (email password : string) (name : option string)
    (user : option User) : M (option User) :=
  match user with
  | Some _ =>
      res_json 400 (Message "User already exists.") ;;
      ret None
  | None =>
      hashedPassword <- bcrypt_hashSync password ;;
      createdUser <- User_create email hashedPassword name ;;
      ret (Some createdUser)
  end.

(** The second [.then] callback. *)
Definition signupCreated (createdUser : option User) : M unit :=
  match createdUser with
  | None => throw TypeError
  | Some created =>
      res_json 201
        (CreatedUser (user_email created) (user_name created) (_id created))
  end.

(** [router.post("/signup", (req, res, next) => ...)] *)
Definition signup (body : Body) : M unit :=
  let email := body_email body in
  let password := body_password body in
  let name := body_name body in
  if isEmptyString email || isEmptyString password || isEmptyString name
  then res_json 400 (Message "Provide email, password and name")
  else if negb (test emailRegex (toString email))
  then res_json 400 (Message "Provide a valid email address.")
  else if negb (test passwordRegex (toString password))
  then
    res_json 400
      (Message "Password must have at least 8 characters and contain at least one number, one symbol, one lowercase and one uppercase letter.")
  else
    catch (user <- User_findOne email ;;
           createdUser <- signupThen (toString email) (toString password) name user ;;
           signupCreated createdUser)
          (fun err => next err).

Definition handleSignup (env : Env) (body : Body) (docs : list User) : State :=
  snd (signup body env (initState docs)).

(** Consecutive login requests, each served to its end before the
    next arrives; the collection is what they share. *)
Fixpoint loginRun (reqs : list (Env * Body)) (docs : list User) : list User :=
  match reqs with
  | [] => docs
  | (env, body) :: rest => loginRun rest (db (handleLogin env body docs))
  end.

(** The document that the failure branch (lines 132-136) leaves in
    [user], when [now] is what its [Date.now()] would return. *)
Definition afterFailure (now : Z) (user : User) : User :=
  let user := set_failedLoginAttempts (failedLoginAttempts user + 1) user in
  if failedLoginAttempts user >=? MAX_LOGIN_ATTEMPTS
  then set_lockUntil (Some (now + LOCK_TIME)) user
  else user.

(** A request for the account under [e] whose password bcrypt does not
    match against [hash], met by a store that answers. *)
Definition wrongPasswordFor (e hash : string) (r : Env * Body) : Prop :=
  findOneRejects (fst r) = false /\ saveRejects (fst r) = false /\
  body_email (snd r) = Some e /\
  exists p, body_password (snd r) = Some p /\ p <> "" /\
            compareSync p hash = false.

(** ** Properties of the lockout *)

Ltac split_ifs :=
  progress repeat match goal with
         | |- context [ if ?c then _ else _ ] => destruct c eqn:?; simpl
         end.

Lemma isEmptyString_false (v : option string) :
  v <> Some "" -> isEmptyString v = false.
Proof.
  destruct v as [[|c s]|]; simpl; congruence.
Qed.

Lemma isLocked_run (this : User) (env : Env) (s : State) :
  isLocked this env s =
  match lockUntil this with
  | None => (Ok false, s)
  | Some l =>
      (Ok (l >? clock env (ticks s)),
       mkState (db s) (S (ticks s)) (sent s) (passed s) (calls s))
  end.
Proof.
  unfold isLocked. destruct (lockUntil this); reflexivity.
Qed.

(** C6: [isLocked] answers true exactly when [lockUntil] is set and
    lies strictly after the value of [Date.now()] it reads; it returns
    that boolean and touches neither the collection, the response, nor
    the log: all it does is read the clock. *)
Theorem C6_isLocked_iff (this : User) (env : Env) (s : State) :
  exists b s',
    isLocked this env s = (Ok b, s') /\
    (b = true <->
     exists l, lockUntil this = Some l /\ l > clock env (ticks s)) /\
    db s' = db s /\ sent s' = sent s /\ passed s' = passed s /\
    calls s' = calls s.
Proof.
  rewrite isLocked_run. destruct (lockUntil this) as [l|].
  - eexists _, _. split; [reflexivity|]. simpl. repeat split; auto.
    + intros H. exists l. split; [reflexivity|].
      apply Z.gtb_lt in H. lia.
    + intros (l' & E & H). inversion E; subst. apply Z.gtb_lt. lia.
  - exists false, s. split; [reflexivity|]. repeat split; auto.
    + discriminate.
    + intros (l & E & _). discriminate.
Qed.

(** The route up to the first callback: the checks on the body pass
    and the query resolves. *)
Lemma login_reaches_then (env : Env) (docs : list User)
    (email password nm : option string) :
  email <> Some "" -> password <> Some "" ->
  findOneRejects env = false ->
  login (mkBody email password nm) env (initState docs) =
  catch (loginThen password
           (match email with
            | Some e => findDoc (castEmail e) docs
            | None => None
            end))
        (fun err => next err) env
        (log (EvFindOne email) (initState docs)).
Proof.
  intros He Hp Hf. unfold login. simpl.
  rewrite (isEmptyString_false _ He), (isEmptyString_false _ Hp). simpl.
  unfold catch, bind, User_findOne. rewrite Hf. reflexivity.
Qed.

Lemma staleLockReset_run (user : User) (env : Env) (s : State) :
  staleLockReset user env s =
  match lockUntil user with
  | None => (Ok user, s)
  | Some l =>
      (Ok (if clock env (ticks s) >? l
           then set_lockUntil None (set_failedLoginAttempts 0 user)
           else user),
       mkState (db s) (S (ticks s)) (sent s) (passed s) (calls s))
  end.
Proof.
  unfold staleLockReset. destruct (lockUntil user) as [l|]; [|reflexivity].
  unfold bind, Date_now, ret. destruct (_ >? l); reflexivity.
Qed.

(** At the very millisecond of [lockUntil] the account is no longer
    locked and not yet reset: the two comparisons are both strict. *)
Lemma expiry_instant_unlocked_unreset (user : User) (env : Env)
    (s : State) (l : Z) :
  lockUntil user = Some l ->
  clock env (ticks s) = l -> clock env (S (ticks s)) = l ->
  exists s1 s2,
    isLocked user env s = (Ok false, s1) /\
    staleLockReset user env s1 = (Ok user, s2).
Proof.
  intros Hl H0 H1. rewrite isLocked_run, Hl, H0.
  eexists _, _. split.
  - rewrite Z.gtb_ltb, Z.ltb_irrefl. reflexivity.
  - rewrite staleLockReset_run, Hl. simpl. rewrite H1.
    rewrite Z.gtb_ltb, Z.ltb_irrefl. reflexivity.
Qed.

(** The lock check turns a locked account away. *)
Lemma login_locked (env : Env) (docs : list User)
    (e : string) (password nm : option string) (user : User) (l : Z) :
  e <> "" -> password <> Some "" ->
  findOneRejects env = false ->
  findDoc (castEmail e) docs = Some user ->
  lockUntil user = Some l -> l > clock env 0 ->
  handleLogin env (mkBody (Some e) password nm) docs =
  mkState docs 1
    (Some (mkResponse 423 (Message "Account locked. Please try again later.")))
    None
    [EvFindOne (Some e);
     EvJson 423 (Message "Account locked. Please try again later.")].
Proof.
  intros He Hp Hf Hfound Hl Hgt. unfold handleLogin.
  rewrite login_reaches_then by congruence.
  rewrite Hfound. unfold catch, loginThen, bind.
  rewrite isLocked_run, Hl. simpl.
  replace (l >? clock env 0) with true
    by (symmetry; apply Z.gtb_lt; lia).
  reflexivity.
Qed.

(** C3: when the account found is locked (its [lockUntil] is set and
    lies after the clock), the request ends with the 423 response of
    the lock check, whatever password was submitted: the only calls
    are the query and that response, so no password is compared,
    nothing is saved, and the stored documents are exactly those from
    before. *)
Theorem C3_locked_account_untouched (env : Env) (docs : list User)
    (e : string) (password nm : option string) (user : User) (l : Z) :
  e <> "" -> password <> Some "" ->
  findOneRejects env = false ->
  findDoc (castEmail e) docs = Some user ->
  lockUntil user = Some l -> l > clock env 0 ->
  let s := handleLogin env (mkBody (Some e) password nm) docs in
  sent s =
    Some (mkResponse 423 (Message "Account locked. Please try again later.")) /\
  passed s = None /\
  calls s =
    [EvFindOne (Some e);
     EvJson 423 (Message "Account locked. Please try again later.")] /\
  (forall d h, ~ In (EvCompare d h) (calls s)) /\
  (forall u ok, ~ In (EvSave u ok) (calls s)) /\
  db s = docs /\
  findDoc (castEmail e) (db s) = Some user.
Proof.
  intros He Hp Hf Hfound Hl Hgt s. subst s.
  rewrite (login_locked env docs e password nm user l) by assumption.
  simpl. repeat split; auto.
  - intros d h [H|[H|[]]]; discriminate.
  - intros u ok [H|[H|[]]]; discriminate.
Qed.

Lemma findDoc_email (e : string) (docs : list User) (u : User) :
  findDoc e docs = Some u -> email u = e.
Proof.
  unfold findDoc. intros H. apply find_some in H.
  destruct H as [_ H]. now apply String.eqb_eq in H.
Qed.

(** Saving a document that was found puts it where the same query
    finds it again. *)
Lemma findDoc_saveDoc (e : string) (docs : list User) (u u' : User) :
  findDoc e docs = Some u ->
  _id u' = _id u -> email u' = email u ->
  findDoc e (saveDoc u' docs) = Some u'.
Proof.
  intros Hfind Hid Hem.
  assert (He : email u' = e)
    by (rewrite Hem; eapply findDoc_email; eauto).
  revert Hfind. unfold findDoc, saveDoc.
  induction docs as [|d docs IH]; simpl; [discriminate|].
  destruct (String.eqb (_id d) (_id u')) eqn:Eid.
  - intros _. rewrite He, String.eqb_refl. reflexivity.
  - destruct (String.eqb (email d) e) eqn:Ee.
    + intros H. inversion H; subst d.
      rewrite Hid, String.eqb_refl in Eid. discriminate.
    + apply IH.
Qed.

Lemma not_locked_cases (user : User) (env : Env) (s s1 : State) :
  isLocked user env s = (Ok false, s1) ->
  (lockUntil user = None /\ s1 = s) \/
  (exists l, lockUntil user = Some l /\ (l >? clock env (ticks s)) = false /\
             s1 = mkState (db s) (S (ticks s)) (sent s) (passed s) (calls s)).
Proof.
  rewrite isLocked_run. destruct (lockUntil user) as [l|]; intros H.
  - right. exists l. inversion H. auto.
  - left. inversion H. auto.
Qed.

(** What a wrong password does to an account that is not locked:
    [user1] is the document as the stale-lock step leaves it and [s2]
    the state in which the password is compared. *)
Lemma login_wrong_password (env : Env) (docs : list User)
    (e p : string) (nm : option string) (user user1 : User) (s1 s2 : State) :
  e <> "" -> p <> "" ->
  findOneRejects env = false ->
  findDoc (castEmail e) docs = Some user ->
  isLocked user env (initState docs) = (Ok false, s1) ->
  staleLockReset user env s1 = (Ok user1, s2) ->
  compareSync p (password user) = false ->
  let user2 := afterFailure (clock env (ticks s2)) user1 in
  let s := handleLogin env (mkBody (Some e) (Some p) nm) docs in
  sent s =
    Some (mkResponse 401
      (Message "Please try again, the email and password did not matched")) /\
  In (EvCompare p (password user)) (calls s) /\
  In (EvSave user2 (negb (saveRejects env))) (calls s) /\
  db s = (if saveRejects env then docs else saveDoc user2 docs).
Proof.
  intros He Hp Hf Hfound Hlock Hreset Hcmp user2 s.
  subst s user2. unfold handleLogin.
  rewrite login_reaches_then by congruence. rewrite Hfound.
  rewrite isLocked_run in Hlock. rewrite staleLockReset_run in Hreset.
  unfold catch, loginThen, isLocked, staleLockReset,
    bcrypt_compareSync, user_save, res_json, next, Date_now, log,
    user_password, afterFailure, initState, bind, ret in *.
  destruct (lockUntil user) as [l|] eqn:Hl; simpl in *.
  - inversion Hlock as [[Hle Hs1]]; subst s1; simpl in *.
    rewrite Hle; simpl.
    inversion Hreset; subst user1 s2; simpl.
    destruct (clock env 1 >? l); simpl; rewrite ?Hl, Hcmp; simpl.
    all: repeat (split_ifs; rewrite ?Hl; simpl); auto 10.
  - inversion Hlock; subst s1; simpl in *.
    inversion Hreset; subst user1 s2; simpl.
    rewrite Hcmp; simpl.
    repeat (split_ifs; rewrite ?Hl; simpl); auto 10.
Qed.

(** C4: a login attempt on an account that is not locked, with a
    password that does not match the stored hash.  [user1] is the
    account as it stands when the password is compared (after the
    stale-lock step) and [now] the value that [Date.now()] has for the
    failure branch.  The document that the handler saves has
    [failedLoginAttempts] one above that of [user1]; its [lockUntil] is
    [now + 300000] when the new count has reached 10 and that of
    [user1] otherwise; the other fields are those of the account found.
    The save is issued in both cases, and a save that the store
    accepts leaves exactly this document under the email.  [user1] is
    the stored account itself whenever that one carries no [lockUntil]. *)
Theorem C4_failed_attempt_counted (env : Env) (docs : list User)
    (e p : string) (nm : option string) (user user1 : User) (s1 s2 : State) :
  e <> "" -> p <> "" ->
  findOneRejects env = false ->
  findDoc (castEmail e) docs = Some user ->
  isLocked user env (initState docs) = (Ok false, s1) ->
  staleLockReset user env s1 = (Ok user1, s2) ->
  compareSync p (password user) = false ->
  let now := clock env (ticks s2) in
  let s := handleLogin env (mkBody (Some e) (Some p) nm) docs in
  (lockUntil user = None -> user1 = user) /\
  exists user2,
    failedLoginAttempts user2 = failedLoginAttempts user1 + 1 /\
    (failedLoginAttempts user1 + 1 >= 10 ->
     lockUntil user2 = Some (now + 300000)) /\
    (failedLoginAttempts user1 + 1 < 10 ->
     lockUntil user2 = lockUntil user1) /\
    (_id user2 = _id user /\ email user2 = email user /\
     password user2 = password user /\ name user2 = name user) /\
    In (EvSave user2 (negb (saveRejects env))) (calls s) /\
    (saveRejects env = false ->
     db s = saveDoc user2 docs /\
     findDoc (castEmail e) (db s) = Some user2).
Proof.
  intros He Hp Hf Hfound Hlock Hreset Hcmp now s.
  destruct (login_wrong_password env docs e p nm user user1 s1 s2
              He Hp Hf Hfound Hlock Hreset Hcmp)
    as (_ & _ & Hsave & Hdb).
  fold s in Hsave, Hdb. fold now in Hsave, Hdb.
  assert (Hsame : _id user1 = _id user /\ email user1 = email user /\
                  password user1 = password user /\ name user1 = name user).
  { rewrite staleLockReset_run in Hreset.
    destruct (lockUntil user); inversion Hreset; subst;
      [destruct (_ >? _)|]; auto. }
  assert (Hsame2 : _id (afterFailure now user1) = _id user /\
                   email (afterFailure now user1) = email user /\
                   password (afterFailure now user1) = password user /\
                   name (afterFailure now user1) = name user).
  { unfold afterFailure. simpl. destruct (_ >=? _); simpl; exact Hsame. }
  assert (Hcount : failedLoginAttempts (afterFailure now user1) =
                   failedLoginAttempts user1 + 1).
  { unfold afterFailure. simpl. destruct (_ >=? _); reflexivity. }
  assert (Hreach : failedLoginAttempts user1 + 1 >= 10 ->
                   lockUntil (afterFailure now user1) = Some (now + 300000)).
  { intros Hge. unfold afterFailure. simpl.
    replace (failedLoginAttempts user1 + 1 >=? MAX_LOGIN_ATTEMPTS) with true.
    - reflexivity.
    - symmetry. apply Z.geb_le. unfold MAX_LOGIN_ATTEMPTS. lia. }
  assert (Hbelow : failedLoginAttempts user1 + 1 < 10 ->
                   lockUntil (afterFailure now user1) = lockUntil user1).
  { intros Hlt. unfold afterFailure. simpl.
    replace (failedLoginAttempts user1 + 1 >=? MAX_LOGIN_ATTEMPTS) with false.
    - reflexivity.
    - symmetry. rewrite Z.geb_leb. apply Z.leb_gt.
      unfold MAX_LOGIN_ATTEMPTS. lia. }
  split.
  { intros Hnone. rewrite staleLockReset_run, Hnone in Hreset.
    inversion Hreset. reflexivity. }
  exists (afterFailure now user1).
  split; [exact Hcount|]. split; [exact Hreach|]. split; [exact Hbelow|].
  split; [exact Hsame2|]. split; [exact Hsave|].
  intros Hs. rewrite Hs in Hdb. split; [exact Hdb|].
  rewrite Hdb. destruct Hsame2 as (Hid & Hem & _).
  apply findDoc_saveDoc with (u := user); assumption.
Qed.

(** C5: a login attempt on an account that is not locked, with the
    password that matches the stored hash, whatever the account's
    [failedLoginAttempts] and [lockUntil] were: the handler saves the
    account with [failedLoginAttempts] 0 and [lockUntil] null, answers
    200 with the token signed for [{ _id, email, name }], and passes no
    error on; a save that the store accepts leaves that document under
    the email. *)
Theorem C5_successful_login_resets (env : Env) (docs : list User)
    (e p : string) (nm : option string) (user : User) (s1 : State) :
  e <> "" -> p <> "" ->
  findOneRejects env = false ->
  findDoc (castEmail e) docs = Some user ->
  isLocked user env (initState docs) = (Ok false, s1) ->
  compareSync p (password user) = true ->
  let s := handleLogin env (mkBody (Some e) (Some p) nm) docs in
  exists saved,
    failedLoginAttempts saved = 0 /\ lockUntil saved = None /\
    (_id saved = _id user /\ email saved = email user /\
     password saved = password user /\ name saved = name user) /\
    In (EvSave saved (negb (saveRejects env))) (calls s) /\
    (saveRejects env = false ->
     db s = saveDoc saved docs /\
     findDoc (castEmail e) (db s) = Some saved) /\
    sent s =
      Some (mkResponse 200
              (AuthToken
                 (jwt_sign (mkPayload (_id user) (email user) (name user))))) /\
    passed s = None.
Proof.
  intros He Hp Hf Hfound Hlock Hcmp s.
  exists (set_lockUntil None (set_failedLoginAttempts 0 user)).
  split; [reflexivity|]. split; [reflexivity|].
  split; [simpl; auto|].
  assert (Hrun :
    In (EvSave (set_lockUntil None (set_failedLoginAttempts 0 user))
               (negb (saveRejects env))) (calls s) /\
    db s = (if saveRejects env then docs
            else saveDoc (set_lockUntil None (set_failedLoginAttempts 0 user))
                         docs) /\
    sent s =
      Some (mkResponse 200
              (AuthToken
                 (jwt_sign (mkPayload (_id user) (email user) (name user))))) /\
    passed s = None).
  { subst s. unfold handleLogin.
    rewrite login_reaches_then by congruence. rewrite Hfound.
    rewrite isLocked_run in Hlock.
    unfold catch, loginThen, isLocked, staleLockReset,
      bcrypt_compareSync, user_save, jwt_sign_call, res_json, next,
      Date_now, log, user_password, initState, bind, ret in *.
    destruct (lockUntil user) as [l|] eqn:Hl; simpl in *.
    - inversion Hlock as [[Hle Hs1]]. rewrite Hle; simpl.
      destruct (clock env 1 >? l); simpl; rewrite Hcmp; simpl.
      all: destruct (saveRejects env); simpl; auto 10.
    - rewrite Hcmp; simpl.
      destruct (saveRejects env); simpl; auto 10. }
  destruct Hrun as (Hsave & Hdb & Hsent & Hpassed).
  split; [exact Hsave|]. split; [|split; assumption].
  intros Hs. rewrite Hs in Hdb. split; [exact Hdb|].
  rewrite Hdb. apply findDoc_saveDoc with (u := user); auto.
Qed.

Lemma staleLockReset_total (user : User) (env : Env) (s : State) :
  exists user1 s2, staleLockReset user env s = (Ok user1, s2).
Proof.
  rewrite staleLockReset_run. destruct (lockUntil user); eauto.
Qed.

(** C7 (as the code has it): a login whose email matches no account
    and a login with a wrong password for an account that is not
    locked both go out with status 401, but not with the same body: the
    first says "User not found.", the second "Please try again, the
    email and password did not matched", so the caller can tell which
    check failed. *)
Theorem C7_same_status_different_body (env env' : Env) (docs : list User)
    (e e' p : string) (pw nm nm' : option string) (user : User) (s1 : State) :
  e <> "" -> pw <> Some "" ->
  findOneRejects env = false ->
  findDoc (castEmail e) docs = None ->
  e' <> "" -> p <> "" ->
  findOneRejects env' = false ->
  findDoc (castEmail e') docs = Some user ->
  isLocked user env' (initState docs) = (Ok false, s1) ->
  compareSync p (password user) = false ->
  let unknown := sent (handleLogin env (mkBody (Some e) pw nm) docs) in
  let wrong := sent (handleLogin env' (mkBody (Some e') (Some p) nm') docs) in
  unknown = Some (mkResponse 401 (Message "User not found.")) /\
  wrong =
    Some (mkResponse 401
      (Message "Please try again, the email and password did not matched")) /\
  option_map status unknown = option_map status wrong /\
  option_map json unknown <> option_map json wrong.
Proof.
  intros He Hpw Hf Hnone He' Hp Hf' Hfound Hlock Hcmp unknown wrong.
  assert (Hu : unknown = Some (mkResponse 401 (Message "User not found."))).
  { subst unknown. unfold handleLogin.
    rewrite login_reaches_then by congruence. rewrite Hnone. reflexivity. }
  assert (Hw : wrong =
    Some (mkResponse 401
      (Message "Please try again, the email and password did not matched"))).
  { destruct (staleLockReset_total user env' s1) as (user1 & s2 & Hreset).
    exact (proj1 (login_wrong_password env' docs e' p nm' user user1 s1 s2
                    He' Hp Hf' Hfound Hlock Hreset Hcmp)). }
  rewrite Hu, Hw. simpl. repeat split; auto. discriminate.
Qed.

(** C10: the check on the body fires exactly when [email] or
    [password] is the empty string, so a field that the request leaves
    out does not set it off: with no empty string in the body the
    handler answers no 400 and its first call is the query with the
    email as given; and when the email is the one left out, the query
    finds nothing and the response is the 401 of the not-found branch. *)
Theorem C10_absent_field_passes_check (env : Env) (docs : list User)
    (email password nm : option string) :
  let s := handleLogin env (mkBody email password nm) docs in
  (option_map status (sent s) = Some 400 <->
   email = Some "" \/ password = Some "") /\
  (email = None \/ password = None ->
   email <> Some "" -> password <> Some "" ->
   (forall b, ~ In (EvJson 400 b) (calls s)) /\
   exists rest, calls s = EvFindOne email :: rest) /\
  (email = None -> password <> Some "" -> findOneRejects env = false ->
   sent s = Some (mkResponse 401 (Message "User not found.")) /\
   calls s = [EvFindOne None; EvJson 401 (Message "User not found.")]).
Proof.
  intros s.
  assert (Hpass : email <> Some "" -> password <> Some "" ->
            option_map status (sent s) <> Some 400 /\
            (forall b, ~ In (EvJson 400 b) (calls s)) /\
            exists rest, calls s = EvFindOne email :: rest).
  { intros He Hp. subst s. unfold handleLogin, login. simpl.
    rewrite (isEmptyString_false _ He), (isEmptyString_false _ Hp). simpl.
    unfold catch, loginThen, isLocked, staleLockReset, User_findOne,
      bcrypt_compareSync, user_save, jwt_sign_call, res_json, next, throw,
      Date_now, log, user_password, initState, bind, ret.
    simpl.
    destruct (findOneRejects env); simpl.
    - repeat split; [discriminate| |eauto].
      intros b [H|[H|[]]]; discriminate.
    - destruct (match email with
                | Some e => findDoc (castEmail e) docs
                | None => None
                end) as [user|]; simpl.
      + destruct (lockUntil user) as [l|] eqn:Hl; simpl;
          destruct password as [p|]; simpl;
          repeat (split_ifs; rewrite ?Hl; simpl);
          (repeat split; [discriminate| |eauto]);
          intros b Hin; simpl in Hin;
          repeat (destruct Hin as [Hin|Hin]; [discriminate|]);
          exact Hin.
      + repeat split; [discriminate| |eauto].
        intros b [H|[H|[]]]; discriminate. }
  split; [|split].
  - split.
    + intros H400.
      destruct email as [[|c e]|]; auto;
        destruct password as [[|c' p]|]; auto;
        exfalso; apply Hpass in H400; auto; discriminate.
    + intros [H|H]; subst; subst s; unfold handleLogin, login; simpl.
      * reflexivity.
      * destruct email as [[|c e]|]; reflexivity.
  - intros _ He Hp. destruct (Hpass He Hp) as (_ & H1 & H2). auto.
  - intros He Hp Hf. subst email s. unfold handleLogin.
    rewrite login_reaches_then by congruence. split; reflexivity.
Qed.

(** One failed attempt on an account whose [lockUntil] is null: the
    clock is first read in the failure branch, if at all. *)
Lemma login_wrong_password_unlocked (env : Env) (body : Body)
    (docs : list User) (e : string) (user : User) :
  e <> "" ->
  findDoc (castEmail e) docs = Some user ->
  lockUntil user = None ->
  wrongPasswordFor e (password user) (env, body) ->
  let s := handleLogin env body docs in
  let user2 := afterFailure (clock env 0) user in
  (exists p, body_password body = Some p /\
             In (EvCompare p (password user)) (calls s)) /\
  db s = saveDoc user2 docs /\
  findDoc (castEmail e) (db s) = Some user2.
Proof.
  intros He Hfound Hl (Hf & Hsv & Hem & p & Hpw & Hp & Hcmp) s user2.
  simpl in Hf, Hsv, Hem, Hpw.
  destruct body as [em pw nm]. simpl in Hem, Hpw. subst em pw.
  assert (Hlock : isLocked user env (initState docs) =
                  (Ok false, initState docs))
    by (rewrite isLocked_run, Hl; reflexivity).
  assert (Hreset : staleLockReset user env (initState docs) =
                   (Ok user, initState docs))
    by (rewrite staleLockReset_run, Hl; reflexivity).
  destruct (login_wrong_password env docs e p nm user user _ _
              He Hp Hf Hfound Hlock Hreset Hcmp)
    as (_ & Hc & _ & Hdb).
  simpl in Hdb. rewrite Hsv in Hdb. fold s in Hc, Hdb. fold user2 in Hdb.
  split; [exists p; auto|]. split; [exact Hdb|].
  rewrite Hdb. apply findDoc_saveDoc with (u := user); auto.
  - unfold user2, afterFailure. simpl. destruct (_ >=? _); reflexivity.
  - unfold user2, afterFailure. simpl. destruct (_ >=? _); reflexivity.
Qed.

Lemma afterFailure_below (now : Z) (user : User) :
  failedLoginAttempts user + 1 < 10 ->
  afterFailure now user =
  set_failedLoginAttempts (failedLoginAttempts user + 1) user.
Proof.
  intros H. unfold afterFailure. simpl.
  replace (failedLoginAttempts user + 1 >=? MAX_LOGIN_ATTEMPTS) with false;
    [reflexivity|].
  symmetry. rewrite Z.geb_leb. apply Z.leb_gt. unfold MAX_LOGIN_ATTEMPTS. lia.
Qed.

(** Failed attempts below the threshold only count. *)
Lemma loginRun_counts (e : string) (reqs : list (Env * Body)) :
  e <> "" ->
  forall (docs : list User) (user : User),
  findDoc (castEmail e) docs = Some user ->
  lockUntil user = None ->
  failedLoginAttempts user + Z.of_nat (List.length reqs) < 10 ->
  Forall (wrongPasswordFor e (password user)) reqs ->
  findDoc (castEmail e) (loginRun reqs docs) =
  Some (set_failedLoginAttempts
          (failedLoginAttempts user + Z.of_nat (List.length reqs)) user).
Proof.
  intros He. induction reqs as [|[env body] reqs IH];
    intros docs user Hfound Hl Hlt Hall.
  - simpl. rewrite Z.add_0_r. rewrite Hfound. destruct user; reflexivity.
  - inversion Hall as [|r rs Hone Hrest]; subst.
    change (List.length ((env, body) :: reqs)) with (S (List.length reqs)) in *.
    rewrite Nat2Z.inj_succ in *.
    destruct (login_wrong_password_unlocked env body docs e user
                He Hfound Hl Hone) as (_ & _ & Hnext).
    rewrite afterFailure_below in Hnext by lia.
    simpl loginRun.
    rewrite (IH _ _ Hnext); simpl; auto; try lia.
    f_equal. unfold set_failedLoginAttempts. simpl. f_equal. lia.
Qed.

(** C1 (as the code has it): ten consecutive failed attempts on an
    account that starts with no failure counted and no lock.  The tenth
    password is compared against the stored hash like the nine before
    it; it is this tenth failure that brings the count to 10 and sets
    [lockUntil] five minutes after the tenth request's clock.  The
    attempt that is answered 423 without any comparison is the next
    one, made before [lockUntil]. *)
Theorem C1_tenth_compared_eleventh_locked (docs : list User)
    (e : string) (user : User) (reqs : list (Env * Body))
    (env10 : Env) (body10 : Body) :
  e <> "" ->
  findDoc (castEmail e) docs = Some user ->
  failedLoginAttempts user = 0 -> lockUntil user = None ->
  List.length reqs = 9%nat ->
  Forall (wrongPasswordFor e (password user)) reqs ->
  wrongPasswordFor e (password user) (env10, body10) ->
  let s10 := handleLogin env10 body10 (loginRun reqs docs) in
  let locked :=
    set_lockUntil (Some (clock env10 0 + 300000))
      (set_failedLoginAttempts 10 user) in
  (exists p, body_password body10 = Some p /\
             In (EvCompare p (password user)) (calls s10)) /\
  findDoc (castEmail e) (db s10) = Some locked /\
  forall (env11 : Env) (pw11 nm11 : option string),
    findOneRejects env11 = false -> pw11 <> Some "" ->
    clock env11 0 < clock env10 0 + 300000 ->
    let s11 := handleLogin env11 (mkBody (Some e) pw11 nm11) (db s10) in
    sent s11 =
      Some (mkResponse 423
              (Message "Account locked. Please try again later.")) /\
    (forall d h, ~ In (EvCompare d h) (calls s11)) /\
    db s11 = db s10.
Proof.
  intros He Hfound Hzero Hl Hlen Hall Hten s10 locked.
  pose proof (loginRun_counts e reqs He docs user Hfound Hl) as Hnine.
  rewrite Hzero, Hlen in Hnine. simpl in Hnine.
  specialize (Hnine eq_refl Hall).
  destruct (login_wrong_password_unlocked env10 body10 (loginRun reqs docs)
              e (set_failedLoginAttempts 9 user) He Hnine Hl Hten)
    as (Hc & _ & Hdoc).
  fold s10 in Hc, Hdoc.
  assert (Hlocked : afterFailure (clock env10 0)
                      (set_failedLoginAttempts 9 user) = locked)
    by reflexivity.
  rewrite Hlocked in Hdoc.
  split; [exact Hc|]. split; [exact Hdoc|].
  intros env11 pw11 nm11 Hf Hpw Hclock s11. subst s11.
  rewrite (login_locked env11 (db s10) e pw11 nm11 locked
             (clock env10 0 + 300000)); auto; try lia.
  simpl. repeat split; auto.
  intros d h [H|[H|[]]]; discriminate.
Qed.

(** ** Signup *)

(** A body that passes the three checks reaches the query. *)
Lemma signup_reaches_then (env : Env) (docs : list User)
    (e p : string) (nm : option string) :
  test emailRegex e = true -> test passwordRegex p = true ->
  nm <> Some "" ->
  signup (mkBody (Some e) (Some p) nm) env (initState docs) =
  catch (user <- User_findOne (Some e) ;;
         createdUser <- signupThen e p nm user ;;
         signupCreated createdUser)
        (fun err => next err) env (initState docs).
Proof.
  intros He Hp Hn. unfold signup.
  cbn [body_email body_password body_name toString].
  assert (E1 : isEmptyString (Some e) = false)
    by (destruct e; [discriminate He | reflexivity]).
  assert (E2 : isEmptyString (Some p) = false)
    by (destruct p; [discriminate Hp | reflexivity]).
  rewrite E1, E2, (isEmptyString_false _ Hn), He, Hp. reflexivity.
Qed.

(** What any signup request does to the collection: nothing, or one
    document appended under an email that no stored document has. *)
Lemma signup_db_cases (env : Env) (body : Body) (docs : list User) :
  let s := handleSignup env body docs in
  db s = docs \/
  exists e p n,
    body = mkBody (Some e) (Some p) (Some n) /\
    findDoc (castEmail e) docs = None /\
    db s =
      (docs ++ [mkUser (freshId env) (castEmail e) (hashSync p (salt env))
                  n 0 None])%list.
Proof.
  intros s. subst s. destruct body as [em pw nm].
  unfold handleSignup, signup.
  cbn [body_email body_password body_name].
  destruct (isEmptyString em || isEmptyString pw || isEmptyString nm);
    [left; reflexivity|].
  destruct (test emailRegex (toString em)) eqn:He; [|left; reflexivity].
  destruct (test passwordRegex (toString pw)) eqn:Hp; [|left; reflexivity].
  destruct em as [e|]; [|discriminate He].
  destruct pw as [p|]; [|discriminate Hp].
  cbn [negb toString].
  unfold catch, signupThen, signupCreated, User_findOne, User_create,
    bcrypt_hashSync, res_json, next, throw, log, initState, bind, ret.
  simpl.
  destruct (findOneRejects env); simpl; [left; reflexivity|].
  destruct (findDoc (castEmail e) docs) eqn:Hfound; simpl;
    [left; reflexivity|].
  destruct nm as [n|]; simpl; [|left; reflexivity].
  destruct (createRejects env); simpl; [left; reflexivity|].
  right. exists e, p, n. auto.
Qed.

Lemma findDoc_app_none (e : string) (docs more : list User) :
  findDoc e docs = None ->
  findDoc e (docs ++ more) = findDoc e more.
Proof.
  unfold findDoc. induction docs as [|d docs IH]; simpl; [reflexivity|].
  destruct (String.eqb (email d) e); [discriminate | exact IH].
Qed.

(** The state in which a signup that creates an account ends. *)
Lemma signup_created_state (env : Env) (docs : list User) (e p n : string) :
  test emailRegex e = true -> test passwordRegex p = true -> n <> "" ->
  findOneRejects env = false -> createRejects env = false ->
  findDoc (castEmail e) docs = None ->
  handleSignup env (mkBody (Some e) (Some p) (Some n)) docs =
  mkState
    (docs ++ [mkUser (freshId env) (castEmail e) (hashSync p (salt env))
                n 0 None])
    0
    (Some (mkResponse 201 (CreatedUser (castEmail e) n (freshId env))))
    None
    [EvFindOne (Some e); EvHash p (salt env);
     EvCreate e (hashSync p (salt env)) (Some n);
     EvJson 201 (CreatedUser (castEmail e) n (freshId env))].
Proof.
  intros He Hp Hn Hf Hc Hnone. unfold handleSignup.
  rewrite signup_reaches_then by congruence.
  unfold catch, signupThen, signupCreated, User_findOne, User_create,
    bcrypt_hashSync, res_json, next, throw, log, initState, bind, ret.
  simpl. rewrite Hf, Hnone. simpl. rewrite Hc. reflexivity.
Qed.

(** X1: a signup whose body is well formed (email and password pass
    their patterns, a name is given) for an email that no account has,
    met by a store that answers, creates the account: the response is
    201 with the email as the schema casts it, the name and the new
    [_id]; one document is appended to the collection, holding the
    bcrypt hash in place of the password, no failed attempt and no
    lock; and the email now finds that document. *)
Theorem signup_creates_account (env : Env) (docs : list User)
    (e p n : string) :
  test emailRegex e = true -> test passwordRegex p = true -> n <> "" ->
  findOneRejects env = false -> createRejects env = false ->
  findDoc (castEmail e) docs = None ->
  let s := handleSignup env (mkBody (Some e) (Some p) (Some n)) docs in
  let doc :=
    mkUser (freshId env) (castEmail e) (hashSync p (salt env)) n 0 None in
  sent s =
    Some (mkResponse 201 (CreatedUser (castEmail e) n (freshId env))) /\
  passed s = None /\
  db s = (docs ++ [doc])%list /\
  findDoc (castEmail e) (db s) = Some doc.
Proof.
  intros He Hp Hn Hf Hc Hnone s doc. subst s doc.
  rewrite signup_created_state by assumption. simpl. repeat split.
  rewrite findDoc_app_none by assumption. unfold findDoc. simpl.
  rewrite String.eqb_refl. reflexivity.
Qed.

(** X2: a signup for an email that already finds an account is
    answered 400 "User already exists."; nothing is hashed, nothing is
    inserted and the collection is as before.  The first callback then
    returns nothing, the second one destructures it, and the resulting
    TypeError is what [next] receives after the response has gone. *)
Theorem signup_duplicate_email_rejected (env : Env) (docs : list User)
    (e p : string) (nm : option string) (user : User) :
  test emailRegex e = true -> test passwordRegex p = true ->
  nm <> Some "" ->
  findOneRejects env = false ->
  findDoc (castEmail e) docs = Some user ->
  let s := handleSignup env (mkBody (Some e) (Some p) nm) docs in
  sent s = Some (mkResponse 400 (Message "User already exists.")) /\
  db s = docs /\
  calls s =
    [EvFindOne (Some e); EvJson 400 (Message "User already exists.");
     EvNext TypeError] /\
  passed s = Some TypeError.
Proof.
  intros He Hp Hn Hf Hfound s. subst s. unfold handleSignup.
  rewrite signup_reaches_then by assumption.
  unfold catch, signupThen, signupCreated, User_findOne, User_create,
    bcrypt_hashSync, res_json, next, throw, log, initState, bind, ret.
  simpl. rewrite Hf, Hfound. simpl. auto.
Qed.

(** X3: a signup body that leaves out the email or the password is
    answered 400 by the checks on the body, before any call to the
    store: [regex.test] reads the missing field as the string
    "undefined", which neither pattern accepts. *)
Theorem signup_absent_field_rejected (env : Env) (docs : list User)
    (email password nm : option string) :
  email = None \/ password = None ->
  let s := handleSignup env (mkBody email password nm) docs in
  option_map status (sent s) = Some 400 /\
  (exists b, calls s = [EvJson 400 b]) /\
  passed s = None /\
  db s = docs.
Proof.
  intros Habs s. subst s. unfold handleSignup, signup.
  cbn [body_email body_password body_name].
  destruct (isEmptyString email || isEmptyString password
            || isEmptyString nm).
  - simpl. eauto 6.
  - destruct Habs as [H|H]; subst.
    + simpl. eauto 6.
    + destruct (test emailRegex (toString email)); simpl; eauto 6.
Qed.

(** X4: whatever the request and whatever the store answers, signup
    leaves every stored account as it was and in place, and adds at
    most one document. *)
Theorem signup_keeps_existing_accounts (env : Env) (body : Body)
    (docs : list User) :
  exists added,
    db (handleSignup env body docs) = (docs ++ added)%list /\
    (List.length added <= 1)%nat.
Proof.
  destruct (signup_db_cases env body docs) as [H|(e & p & n & _ & _ & H)].
  - exists []. rewrite app_nil_r. split; [exact H | simpl; lia].
  - eexists [_]. split; [exact H | simpl; lia].
Qed.

(** X5: if no two stored accounts share an email, no signup request
    makes two of them share one: an account is only inserted under an
    email that the query did not find. *)
Theorem signup_keeps_emails_unique (env : Env) (body : Body)
    (docs : list User) :
  NoDup (map email docs) ->
  NoDup (map email (db (handleSignup env body docs))).
Proof.
  intros Hnd.
  destruct (signup_db_cases env body docs)
    as [H|(e & p & n & _ & Hnone & H)]; rewrite H; [exact Hnd|].
  rewrite map_app. simpl.
  apply NoDup_app; [exact Hnd | repeat constructor; intros [] |].
  intros a Hin [Ha|[]]. subst a.
  apply in_map_iff in Hin. destruct Hin as (d & Hd & Hin).
  unfold findDoc in Hnone.
  pose proof (find_none _ _ Hnone d Hin) as Hneq. simpl in Hneq.
  rewrite Hd, String.eqb_refl in Hneq. discriminate.
Qed.

(** X6: signup and login compose.  When bcrypt matches a password
    against the hash it made of it, a login with the email and password
    of an account that signup has just created is answered 200 with
    the token signed for the new account, and finds the account with
    no failed attempt and no lock. *)
Theorem login_after_signup_succeeds (env env' : Env) (docs : list User)
    (e p n : string) (nm' : option string) :
  test emailRegex e = true -> test passwordRegex p = true -> n <> "" ->
  findOneRejects env = false -> createRejects env = false ->
  findDoc (castEmail e) docs = None ->
  compareSync p (hashSync p (salt env)) = true ->
  findOneRejects env' = false ->
  let created := db (handleSignup env (mkBody (Some e) (Some p) (Some n)) docs) in
  let s := handleLogin env' (mkBody (Some e) (Some p) nm') created in
  sent s =
    Some (mkResponse 200
            (AuthToken (jwt_sign (mkPayload (freshId env) (castEmail e) n)))) /\
  passed s = None /\
  (forall d h, In (EvCompare d h) (calls s) ->
               d = p /\ h = hashSync p (salt env)).
Proof.
  intros He Hp Hn Hf Hc Hnone Hcmp Hf' created s.
  assert (Hfound : findDoc (castEmail e) created =
            Some (mkUser (freshId env) (castEmail e) (hashSync p (salt env))
                    n 0 None)).
  { subst created. rewrite signup_created_state by assumption. simpl.
    rewrite findDoc_app_none by assumption. unfold findDoc. simpl.
    rewrite String.eqb_refl. reflexivity. }
  subst s. unfold handleLogin.
  assert (E1 : Some e <> Some "")
    by (destruct e; [discriminate He | discriminate]).
  assert (E2 : Some p <> Some "")
    by (destruct p; [discriminate Hp | discriminate]).
  rewrite login_reaches_then by assumption.
  rewrite Hfound.
  unfold catch, loginThen, isLocked, staleLockReset,
    bcrypt_compareSync, user_save, jwt_sign_call, res_json, next,
    Date_now, log, user_password, initState, bind, ret.
  simpl. rewrite Hcmp. simpl.
  destruct (saveRejects env'); simpl;
    (split; [reflexivity|split; [reflexivity|]]);
    intros d h [H|[H|[H|[H|[H|[]]]]]]; try discriminate;
    inversion H; auto.
Qed.

(** ** Every login request *)

(** What any login request does to the collection: nothing, or one
    save of the account found, with its counter and lock reset or with
    one more failure counted (after the stale-lock reset or without). *)
Lemma login_db_cases (env : Env) (body : Body) (docs : list User) :
  let s := handleLogin env body docs in
  db s = docs \/
  exists e u u',
    body_email body = Some e /\
    findDoc (castEmail e) docs = Some u /\
    db s = saveDoc u' docs /\
    (u' = set_lockUntil None (set_failedLoginAttempts 0 u) \/
     exists now,
       u' = afterFailure now u \/
       u' = afterFailure now
              (set_lockUntil None (set_failedLoginAttempts 0 u))).
Proof.
  intros s. subst s. destruct body as [em pw nm].
  unfold handleLogin, login. cbn [body_email body_password].
  destruct (isEmptyString em || isEmptyString pw); [left; reflexivity|].
  unfold catch, loginThen, isLocked, staleLockReset, User_findOne,
    bcrypt_compareSync, user_save, jwt_sign_call, res_json, next, throw,
    Date_now, log, user_password, initState, bind, ret.
  simpl.
  destruct (findOneRejects env); simpl; [left; reflexivity|].
  destruct em as [e|]; [|left; reflexivity].
  destruct (findDoc (castEmail e) docs) as [user|] eqn:Hfound;
    [|left; reflexivity].
  destruct (lockUntil user) as [l|] eqn:Hl; simpl;
    destruct pw as [p|]; simpl.
  all: repeat (split_ifs; rewrite ?Hl; simpl).
  all: try (left; reflexivity).
  all: right; exists e, user; eexists;
    (split; [reflexivity|]); (split; [exact Hfound|]);
    (split; [reflexivity|]).
  all: first
    [ left; reflexivity
    | right; exists 0; right; reflexivity
    | right; exists 0; left; unfold afterFailure;
      cbn [failedLoginAttempts set_failedLoginAttempts];
      match goal with H : (_ >=? _) = _ |- _ => rewrite H end;
      reflexivity
    | right; eexists; left; unfold afterFailure;
      cbn [failedLoginAttempts set_failedLoginAttempts];
      match goal with H : (_ >=? _) = _ |- _ => rewrite H end;
      reflexivity ].
Qed.

(** The handler, branch by branch: the goal is left once for every
    path through [login], with the tests taken on the way among the
    hypotheses. *)
Ltac login_paths em pw :=
  unfold handleLogin, login; cbn [body_email body_password];
  destruct (isEmptyString em || isEmptyString pw) eqn:Hcheck;
  [ simpl
  | unfold catch, loginThen, isLocked, staleLockReset, User_findOne,
      bcrypt_compareSync, user_save, jwt_sign_call, res_json, next, throw,
      Date_now, log, user_password, initState, bind, ret;
    simpl;
    destruct (findOneRejects _) eqn:Hrej; simpl;
    [ | destruct em as [e|];
        [ destruct (findDoc (castEmail e) _) as [user|] eqn:Hfound;
          [ destruct (lockUntil user) as [l|] eqn:Hl; simpl;
            destruct pw as [p|]; simpl;
            repeat (split_ifs; rewrite ?Hl; simpl)
          | simpl ]
        | simpl ] ] ].

Lemma same_id_same_doc (docs : list User) (a b : User) :
  NoDup (map _id docs) -> In a docs -> In b docs -> _id a = _id b -> a = b.
Proof.
  induction docs as [|d docs IH]; simpl; [contradiction|].
  intros Hnd Ha Hb Hid. inversion Hnd as [|x xs Hnot Hnd']; subst.
  destruct Ha as [Ha|Ha], Hb as [Hb|Hb]; subst; auto.
  - exfalso. apply Hnot. rewrite Hid. now apply in_map.
  - exfalso. apply Hnot. rewrite <- Hid. now apply in_map.
Qed.

Lemma findDoc_In (e : string) (docs : list User) (u : User) :
  findDoc e docs = Some u -> In u docs.
Proof.
  unfold findDoc. intros H. now apply find_some in H.
Qed.

(** X7: the lockout data of the stored accounts stay consistent under
    every login request, whatever the body, the clock and the store's
    answers: if before the request every account has a count of
    failures that is not negative, and at least 10 when it carries a
    [lockUntil], the same holds after it. *)
Theorem login_keeps_lockout_consistent (env : Env) (body : Body)
    (docs : list User) :
  Forall (fun d => 0 <= failedLoginAttempts d /\
                   (lockUntil d <> None -> 10 <= failedLoginAttempts d))
         docs ->
  Forall (fun d => 0 <= failedLoginAttempts d /\
                   (lockUntil d <> None -> 10 <= failedLoginAttempts d))
         (db (handleLogin env body docs)).
Proof.
  intros Hall.
  destruct (login_db_cases env body docs)
    as [H|(e & u & u' & _ & Hfound & H & Hu')]; rewrite H; [exact Hall|].
  assert (Hu : 0 <= failedLoginAttempts u /\
               (lockUntil u <> None -> 10 <= failedLoginAttempts u)).
  { rewrite Forall_forall in Hall. apply Hall.
    eapply findDoc_In; eauto. }
  assert (Hafter : forall now v,
            0 <= failedLoginAttempts v /\
            (lockUntil v <> None -> 10 <= failedLoginAttempts v) ->
            0 <= failedLoginAttempts (afterFailure now v) /\
            (lockUntil (afterFailure now v) <> None ->
             10 <= failedLoginAttempts (afterFailure now v))).
  { intros now v [Hv0 Hv1]. unfold afterFailure.
    cbn [failedLoginAttempts set_failedLoginAttempts].
    destruct (failedLoginAttempts v + 1 >=? MAX_LOGIN_ATTEMPTS) eqn:Hge;
      simpl.
    - apply Z.geb_le in Hge. unfold MAX_LOGIN_ATTEMPTS in Hge. lia.
    - split; [lia|]. intros Hn. specialize (Hv1 Hn). lia. }
  assert (Hu'ok : 0 <= failedLoginAttempts u' /\
                  (lockUntil u' <> None -> 10 <= failedLoginAttempts u')).
  { destruct Hu' as [Hr|(now & [Hr|Hr])]; subst u'.
    - simpl. split; [lia | congruence].
    - apply Hafter, Hu.
    - apply Hafter. simpl. split; [lia | congruence]. }
  unfold saveDoc. rewrite Forall_forall in *. intros d Hin.
  apply in_map_iff in Hin. destruct Hin as (d0 & Hd & Hin).
  destruct (String.eqb (_id d0) (_id u')); subst d; auto.
Qed.

(** X8: a login request rewrites nothing but the counter and the lock
    of the account its query finds.  When the stored [_id]s are
    distinct, every account keeps its [_id], email, password hash and
    name in its place, and every stored document other than the one
    found is after the request exactly what it was. *)
Theorem login_touches_only_found_counters (env : Env) (body : Body)
    (docs : list User) :
  NoDup (map _id docs) ->
  let docs' := db (handleLogin env body docs) in
  map (fun d => (_id d, email d, password d, name d)) docs' =
  map (fun d => (_id d, email d, password d, name d)) docs /\
  forall (i : nat) (d : User),
    nth_error docs i = Some d ->
    (forall e, body_email body = Some e ->
               findDoc (castEmail e) docs <> Some d) ->
    nth_error docs' i = Some d.
Proof.
  intros Hnd docs'. subst docs'.
  destruct (login_db_cases env body docs)
    as [H|(e & u & u' & Hem & Hfound & H & Hu')]; rewrite H;
    [split; auto|].
  pose proof (findDoc_In _ _ _ Hfound) as Hin.
  assert (Hid : (_id u', email u', password u', name u') =
                (_id u, email u, password u, name u)).
  { destruct Hu' as [Hr|(now & [Hr|Hr])]; subst u';
      unfold afterFailure; cbn [failedLoginAttempts set_failedLoginAttempts];
      try destruct (_ >=? _); reflexivity. }
  assert (Hid' : _id u' = _id u) by (inversion Hid; auto).
  split.
  - unfold saveDoc. rewrite map_map. apply map_ext_in.
    intros d Hd. destruct (String.eqb (_id d) (_id u')) eqn:E; auto.
    apply String.eqb_eq in E. rewrite Hid' in E.
    rewrite (same_id_same_doc docs d u Hnd Hd Hin E). exact Hid.
  - intros i d Hnth Hother. unfold saveDoc.
    rewrite nth_error_map, Hnth. simpl.
    destruct (String.eqb (_id d) (_id u')) eqn:E; auto.
    apply String.eqb_eq in E. rewrite Hid' in E.
    exfalso. apply (Hother e Hem). rewrite Hfound. f_equal.
    symmetry. apply (same_id_same_doc docs d u Hnd); auto.
    eapply nth_error_In; eauto.
Qed.

(** One request for a locked account, whatever else it holds. *)
Lemma login_locked_any (env : Env) (body : Body) (docs : list User)
    (e : string) (user : User) (l : Z) :
  findDoc (castEmail e) docs = Some user ->
  lockUntil user = Some l ->
  body_email body = Some e -> clock env 0 < l ->
  let s := handleLogin env body docs in
  db s = docs /\ (forall d h, ~ In (EvCompare d h) (calls s)).
Proof.
  intros Hfound0 Hl0 Hem Hlt s. subst s.
  destruct body as [em pw nm]. simpl in Hem. subst em.
  assert (Hgt : (l >? clock env 0) = true) by (apply Z.gtb_lt; lia).
  unfold handleLogin, login; cbn [body_email body_password].
  destruct (isEmptyString (Some e) || isEmptyString pw).
  - simpl. split; [reflexivity|]. intros d h [H|[]]; discriminate.
  - unfold catch, loginThen, isLocked, User_findOne, res_json, next,
      Date_now, log, initState, bind, ret.
    simpl. destruct (findOneRejects env); simpl.
    + split; [reflexivity|]. intros d h [H|[H|[]]]; discriminate.
    + rewrite Hfound0. simpl. rewrite Hl0. simpl. rewrite Hgt. simpl.
      split; [reflexivity|]. intros d h [H|[H|[]]]; discriminate.
Qed.

(** X9: a lock holds for its whole window.  While the clock of each
    request is before [lockUntil], no sequence of login requests for
    that email, with whatever passwords and however many, changes the
    collection: the lock cannot be lifted, extended or counted
    against by trying again. *)
Theorem locked_account_frozen (reqs : list (Env * Body))
    (docs : list User) (e : string) (user : User) (l : Z) :
  findDoc (castEmail e) docs = Some user ->
  lockUntil user = Some l ->
  Forall (fun r => body_email (snd r) = Some e /\ clock (fst r) 0 < l) reqs ->
  loginRun reqs docs = docs.
Proof.
  intros Hfound Hl Hall.
  induction reqs as [|[env body] reqs IH]; [reflexivity|].
  inversion Hall as [|r rs [Hem Hlt] Hrest]; subst. simpl in Hem, Hlt.
  simpl.
  rewrite (proj1 (login_locked_any env body docs e user l
                    Hfound Hl Hem Hlt)).
  apply IH, Hrest.
Qed.

(** X10: a token is only issued for a matching password.  Whenever a
    login is answered 200, the body named an email that finds an
    account, that account was not locked at the clock of the request,
    and bcrypt matched the submitted password against its stored
    hash. *)
Theorem token_only_for_matching_password (env : Env) (body : Body)
    (docs : list User) :
  option_map status (sent (handleLogin env body docs)) = Some 200 ->
  exists e p user,
    body_email body = Some e /\ body_password body = Some p /\
    findDoc (castEmail e) docs = Some user /\
    compareSync p (password user) = true /\
    (forall l, lockUntil user = Some l -> l <= clock env 0).
Proof.
  destruct body as [em pw nm].
  login_paths em pw; intros H200; try discriminate H200.
  all: exists e, p, user; repeat split; auto.
  all: try (intros l0 Hl0; congruence).
  all: intros l0 Hl0;
    match goal with
    | Hl : lockUntil _ = Some ?l1, H : (?l1 >? clock _ 0) = false |- _ =>
        assert (l0 = l1) by congruence; subst l0;
        rewrite Z.gtb_ltb in H; apply Z.ltb_ge in H; exact H
    end.
Qed.

(** X11: no login request is left without an outcome.  The handler
    either writes a response, with status 200, 400, 401 or 423, or
    hands an error to [next]; it writes none only when the query was
    rejected or bcrypt refused its arguments. *)
Theorem login_always_answers (env : Env) (body : Body) (docs : list User) :
  let s := handleLogin env body docs in
  (forall r, sent s = Some r -> In (status r) [200; 400; 401; 423]) /\
  (sent s = None ->
   passed s = Some StoreError \/ passed s = Some BcryptArgumentError).
Proof.
  intros s. subst s. destruct body as [em pw nm].
  login_paths em pw.
  all: split;
    [ intros r Hr; try discriminate Hr; inversion Hr; subst r; simpl; tauto
    | intros Hn; try discriminate Hn; auto ].
Qed.

(** X12: the second response of the failure branch never goes out.
    After a wrong password the handler has already answered 401
    "Please try again, ..." when it calls [res.json] again, so neither
    "Invalid username or password" nor "Account locked due to too many
    failed login attempts..." is ever the body a caller receives, and
    every such request ends with ERR_HTTP_HEADERS_SENT handed to
    [next]. *)
Theorem second_response_never_sent (env : Env) (body : Body)
    (docs : list User) :
  let s := handleLogin env body docs in
  (forall r, sent s = Some r ->
     json r <> Message "Invalid username or password" /\
     json r <>
       Message "Account locked due to too many failed login attempts. Please try again later.") /\
  (sent s =
     Some (mkResponse 401
       (Message "Please try again, the email and password did not matched")) ->
   passed s = Some ERR_HTTP_HEADERS_SENT).
Proof.
  intros s. subst s. destruct body as [em pw nm].
  login_paths em pw.
  all: split;
    [ intros r Hr; try discriminate Hr; inversion Hr; subst r; simpl;
      split; discriminate
    | intros Hs; try discriminate Hs; reflexivity ].
Qed.

(** X13: a login that names an existing, unlocked account but leaves
    out the password is not counted as a failure: bcrypt throws before
    anything is compared, the handler writes no response and saves
    nothing, and the error goes to [next]. *)
Theorem login_without_password_not_counted (env : Env) (docs : list User)
    (e : string) (nm : option string) (user : User) (s1 : State) :
  e <> "" ->
  findOneRejects env = false ->
  findDoc (castEmail e) docs = Some user ->
  isLocked user env (initState docs) = (Ok false, s1) ->
  let s := handleLogin env (mkBody (Some e) None nm) docs in
  sent s = None /\
  passed s = Some BcryptArgumentError /\
  db s = docs /\
  (forall u ok, ~ In (EvSave u ok) (calls s)).
Proof.
  intros He Hf Hfound Hlock s. subst s. unfold handleLogin.
  rewrite login_reaches_then by congruence. rewrite Hfound.
  rewrite isLocked_run in Hlock.
  unfold catch, loginThen, isLocked, staleLockReset,
    bcrypt_compareSync, next, throw, Date_now, log, initState, bind, ret
    in *.
  destruct (lockUntil user) as [l|] eqn:Hl; simpl in *.
  - inversion Hlock as [[Hle Hs1]]. rewrite Hle. simpl.
    destruct (clock env 1 >? l); simpl; repeat split; auto;
      intros u ok [H|[H|[]]]; discriminate.
  - repeat split; auto. intros u ok [H|[H|[]]]; discriminate.
Qed.

(** X14: an expired lock heals on the next attempt.  When the clock
    has passed [lockUntil], a wrong password is saved as the first
    failure of a fresh count, with no lock, whatever the count was: the
    user has the full number of tries again. *)
Theorem expired_lock_restarts_count (env : Env) (docs : list User)
    (e p : string) (nm : option string) (user : User) (l : Z) :
  e <> "" -> p <> "" ->
  findOneRejects env = false -> saveRejects env = false ->
  findDoc (castEmail e) docs = Some user ->
  lockUntil user = Some l ->
  l <= clock env 0 -> l < clock env 1 ->
  compareSync p (password user) = false ->
  let s := handleLogin env (mkBody (Some e) (Some p) nm) docs in
  findDoc (castEmail e) (db s) =
    Some (set_lockUntil None (set_failedLoginAttempts 1 user)).
Proof.
  intros He Hp Hf Hsv Hfound Hl H0 H1 Hcmp s.
  assert (Hlock : isLocked user env (initState docs) =
            (Ok false, mkState docs 1 None None [])).
  { rewrite isLocked_run, Hl. simpl.
    replace (l >? clock env 0) with false; [reflexivity|].
    symmetry. rewrite Z.gtb_ltb. apply Z.ltb_ge. lia. }
  assert (Hreset : staleLockReset user env (mkState docs 1 None None []) =
            (Ok (set_lockUntil None (set_failedLoginAttempts 0 user)),
             mkState docs 2 None None [])).
  { rewrite staleLockReset_run, Hl. simpl.
    replace (clock env 1 >? l) with true; [reflexivity|].
    symmetry. apply Z.gtb_lt. lia. }
  destruct (login_wrong_password env docs e p nm user _ _ _
              He Hp Hf Hfound Hlock Hreset Hcmp) as (_ & _ & _ & Hdb).
  fold s in Hdb. rewrite Hsv in Hdb. rewrite Hdb.
  apply findDoc_saveDoc with (u := user); auto.
Qed.

(** The collection after a matching password. *)
Lemma login_right_password_db (env : Env) (docs : list User)
    (e p : string) (nm : option string) (user : User) (s1 : State) :
  e <> "" -> p <> "" ->
  findOneRejects env = false ->
  findDoc (castEmail e) docs = Some user ->
  isLocked user env (initState docs) = (Ok false, s1) ->
  compareSync p (password user) = true ->
  db (handleLogin env (mkBody (Some e) (Some p) nm) docs) =
  (if saveRejects env then docs
   else saveDoc (set_lockUntil None (set_failedLoginAttempts 0 user)) docs).
Proof.
  intros He Hp Hf Hfound Hlock Hcmp. unfold handleLogin.
  rewrite login_reaches_then by congruence. rewrite Hfound.
  rewrite isLocked_run in Hlock.
  unfold catch, loginThen, isLocked, staleLockReset,
    bcrypt_compareSync, user_save, jwt_sign_call, res_json, next,
    Date_now, log, user_password, initState, bind, ret in *.
  destruct (lockUntil user) as [l|] eqn:Hl; simpl in *.
  - inversion Hlock as [[Hle Hs1]]. rewrite Hle; simpl.
    destruct (clock env 1 >? l); simpl; rewrite Hcmp; simpl.
    all: destruct (saveRejects env); reflexivity.
  - rewrite Hcmp; simpl. destruct (saveRejects env); reflexivity.
Qed.

(** X15: a successful login starts the count afresh.  After it, up to
    nine wrong passwords in a row leave the account without a lock and
    with exactly that many failures counted, whatever had been counted
    before the success. *)
Theorem success_restarts_count (env : Env) (docs : list User)
    (e p : string) (nm : option string) (user : User) (s1 : State)
    (reqs : list (Env * Body)) :
  e <> "" -> p <> "" ->
  findOneRejects env = false -> saveRejects env = false ->
  findDoc (castEmail e) docs = Some user ->
  isLocked user env (initState docs) = (Ok false, s1) ->
  compareSync p (password user) = true ->
  (List.length reqs < 10)%nat ->
  Forall (wrongPasswordFor e (password user)) reqs ->
  findDoc (castEmail e)
    (loginRun reqs
       (db (handleLogin env (mkBody (Some e) (Some p) nm) docs))) =
  Some (set_lockUntil None
          (set_failedLoginAttempts (Z.of_nat (List.length reqs)) user)).
Proof.
  intros He Hp Hf Hsv Hfound Hlock Hcmp Hlen Hall.
  rewrite (login_right_password_db env docs e p nm user s1) by assumption.
  rewrite Hsv.
  assert (Hnow : findDoc (castEmail e)
            (saveDoc (set_lockUntil None (set_failedLoginAttempts 0 user))
               docs) =
          Some (set_lockUntil None (set_failedLoginAttempts 0 user)))
    by (apply findDoc_saveDoc with (u := user); auto).
  rewrite (loginRun_counts e reqs He _ _ Hnow); simpl; auto; lia.
Qed.

(** X17: a signup body that passes the checks but carries no name
    creates nothing: the password is hashed, the insertion fails on the
    required [name], no response is written and the validation error
    goes to [next]. *)
Theorem signup_without_name_creates_nothing (env : Env) (docs : list User)
    (e p : string) :
  test emailRegex e = true -> test passwordRegex p = true ->
  findOneRejects env = false ->
  findDoc (castEmail e) docs = None ->
  let s := handleSignup env (mkBody (Some e) (Some p) None) docs in
  sent s = None /\
  passed s = Some ValidationError /\
  db s = docs /\
  calls s =
    [EvFindOne (Some e); EvHash p (salt env);
     EvCreate e (hashSync p (salt env)) None; EvNext ValidationError].
Proof.
  intros He Hp Hf Hnone s. subst s. unfold handleSignup.
  rewrite signup_reaches_then by (assumption || discriminate).
  unfold catch, signupThen, signupCreated, User_findOne, User_create,
    bcrypt_hashSync, res_json, next, throw, log, initState, bind, ret.
  simpl. rewrite Hf, Hnone. simpl. auto.
Qed.

End Auth.

(** ** The email pattern *)

(** A greedy class star followed by [k] succeeds exactly when some
    prefix made of the class leaves a rest that [k] accepts. *)
Lemma star_split (p : ascii -> bool) (k : string -> bool) (s : string) :
  star p k s = true <->
  exists a b, s = a ++ b /\
              forallb p (list_ascii_of_string a) = true /\ k b = true.
Proof.
  induction s as [|c s IH]; simpl.
  - split.
    + intros H. exists "", "". auto.
    + intros (a & b & Hs & _ & Hk). destruct a; [|discriminate].
      simpl in Hs. subst b. exact Hk.
  - rewrite orb_true_iff, andb_true_iff, IH. split.
    + intros [[Hc (a & b & Hs & Ha & Hk)]|Hk].
      * exists (String c a), b. simpl. rewrite Hc, Ha, Hs. auto.
      * exists "", (String c s). auto.
    + intros (a & b & Hs & Ha & Hk). destruct a as [|c' a]; simpl in *.
      * right. subst b. exact Hk.
      * inversion Hs; subst. apply andb_true_iff in Ha.
        destruct Ha as [Hc Ha]. left. split; [exact Hc|]. eauto.
Qed.

Lemma atLeast_split (n : nat) (p : ascii -> bool) (k : string -> bool)
    (s : string) :
  matchFrom (atLeast n p) s k = true <->
  exists a b, s = a ++ b /\ (n <= String.length a)%nat /\
              forallb p (list_ascii_of_string a) = true /\ k b = true.
Proof.
  revert s. induction n as [|n IH]; intros s.
  - simpl. rewrite star_split. split.
    + intros (a & b & H1 & H2 & H3). exists a, b.
      repeat split; auto. lia.
    + intros (a & b & H1 & _ & H2 & H3). eauto.
  - simpl. destruct s as [|c s].
    + split; [discriminate|].
      intros (a & b & Hs & Hlen & _). destruct a; simpl in *;
        [lia | discriminate].
    + rewrite andb_true_iff, IH. split.
      * intros [Hc (a & b & Hs & Hlen & Ha & Hk)].
        exists (String c a), b. simpl. rewrite Hc, Ha, Hs.
        repeat split; auto. lia.
      * intros (a & b & Hs & Hlen & Ha & Hk).
        destruct a as [|c' a]; simpl in *; [lia|].
        inversion Hs; subst. apply andb_true_iff in Ha.
        destruct Ha as [Hc Ha]. split; [exact Hc|].
        exists a, b. repeat split; auto. lia.
Qed.

Lemma append_empty (s : string) : s ++ "" = s.
Proof.
  induction s as [|c s IH]; simpl; [reflexivity | now rewrite IH].
Qed.

(** X16: [emailRegex] accepts exactly the strings of the shape
    [local@domain.tld] in which the three parts hold no whitespace and
    no [@], the local part and the domain are not empty and the last
    part has at least two characters.  The domain and the local part
    may themselves hold dots. *)
Theorem emailRegex_accepts_iff (s : string) :
  test emailRegex s = true <->
  exists local domain tld,
    s = local ++ "@" ++ domain ++ "." ++ tld /\
    (1 <= String.length local)%nat /\
    (1 <= String.length domain)%nat /\
    (2 <= String.length tld)%nat /\
    forallb notSpaceAt (list_ascii_of_string local) = true /\
    forallb notSpaceAt (list_ascii_of_string domain) = true /\
    forallb notSpaceAt (list_ascii_of_string tld) = true.
Proof.
  unfold test, emailRegex, plus. cbn [matchFrom].
  rewrite atLeast_split. split.
  - intros (a & r1 & Hs & Hla & Ha & Hk).
    destruct r1 as [|c1 r1]; [discriminate|].
    apply andb_true_iff in Hk. destruct Hk as [Hat Hk].
    rewrite atLeast_split in Hk.
    destruct Hk as (b & r2 & Hs2 & Hlb & Hb & Hk).
    destruct r2 as [|c2 r2]; [discriminate|].
    apply andb_true_iff in Hk. destruct Hk as [Hdot Hk].
    rewrite atLeast_split in Hk.
    destruct Hk as (c & r3 & Hs3 & Hlc & Hc & Hk).
    destruct r3; [|discriminate].
    assert (c1 = "@"%char).
    { destruct c1 as [[] [] [] [] [] [] [] []]; try discriminate Hat.
      reflexivity. }
    assert (c2 = "."%char).
    { destruct c2 as [[] [] [] [] [] [] [] []]; try discriminate Hdot.
      reflexivity. }
    subst c1 c2. exists a, b, c. subst. simpl.
    rewrite append_empty. repeat split; auto.
  - intros (a & b & c & Hs & Hla & Hlb & Hlc & Ha & Hb & Hc).
    exists a, ("@" ++ b ++ "." ++ c). repeat split; auto.
    cbn [append]. apply andb_true_iff. split; [reflexivity|].
    rewrite atLeast_split.
    exists b, ("." ++ c). repeat split; auto.
    cbn [append]. apply andb_true_iff. split; [reflexivity|].
    rewrite atLeast_split.
    exists c, "". repeat split; auto.
    symmetry. apply append_empty.
Qed.

(** ** The password pattern *)

(** A class repeated up to the end of the input; [k] is the
    continuation that [Eos] leaves. *)
Lemma star_to_end (p : ascii -> bool) (k : string -> bool) (s : string) :
  (forall s', k s' = match s' with EmptyString => true | _ => false end) ->
  star p k s = forallb p (list_ascii_of_string s).
Proof.
  intros Hk. induction s as [|c s IH]; simpl.
  - apply Hk.
  - rewrite IH, Hk. apply orb_false_r.
Qed.

Lemma atLeast_to_end (n : nat) (p : ascii -> bool) (k : string -> bool)
    (s : string) :
  (forall s', k s' = match s' with EmptyString => true | _ => false end) ->
  matchFrom (atLeast n p) s k =
  (n <=? String.length s)%nat && forallb p (list_ascii_of_string s).
Proof.
  intros Hk. revert s. induction n as [|n IH]; intros s.
  - simpl. apply star_to_end, Hk.
  - destruct s as [|c s].
    + reflexivity.
    + simpl. rewrite IH.
      destruct (p c), (n <=? String.length s)%nat; reflexivity.
Qed.

(** A lookahead [(?=.*[q])] that succeeds has found a [q]. *)
Lemma look_sound (q : ascii -> bool) (s : string) :
  matchFrom (Seq (Star dot) (Cls q)) s (fun _ => true) = true ->
  existsb q (list_ascii_of_string s) = true.
Proof.
  simpl. induction s as [|c s IH]; simpl; [discriminate|].
  intros H. apply orb_true_iff in H. destruct H as [H|H].
  - apply andb_true_iff in H. destruct H as [_ H].
    rewrite (IH H). apply orb_true_r.
  - apply andb_true_iff in H. destruct H as [H _]. rewrite H. reflexivity.
Qed.

(** It finds every [q] that no line terminator precedes. *)
Lemma look_complete (q : ascii -> bool) (s : string) :
  forallb dot (list_ascii_of_string s) = true ->
  existsb q (list_ascii_of_string s) = true ->
  matchFrom (Seq (Star dot) (Cls q)) s (fun _ => true) = true.
Proof.
  simpl. induction s as [|c s IH]; simpl; [discriminate|].
  intros Hd He. apply andb_true_iff in Hd. destruct Hd as [Hc Hd].
  apply orb_true_iff in He. destruct He as [He|He].
  - rewrite He. simpl. apply orb_true_r.
  - rewrite Hc, (IH Hd He). reflexivity.
Qed.

Lemma passwordChar_dot (c : ascii) : passwordChar c = true -> dot c = true.
Proof.
  destruct c as [[] [] [] [] [] [] [] []]; vm_compute; congruence.
Qed.

Lemma forallb_passwordChar_dot (l : list ascii) :
  forallb passwordChar l = true -> forallb dot l = true.
Proof.
  induction l as [|c l IH]; simpl; [reflexivity|].
  intros H. apply andb_true_iff in H. destruct H as [Hc Hl].
  rewrite (passwordChar_dot c Hc), (IH Hl). reflexivity.
Qed.

Lemma test_passwordRegex_unfold (pw : string) :
  test passwordRegex pw =
  matchFrom (Seq (Star dot) (Cls lower)) pw (fun _ => true)
  && (matchFrom (Seq (Star dot) (Cls upper)) pw (fun _ => true)
  && (matchFrom (Seq (Star dot) (Cls digit)) pw (fun _ => true)
  && (matchFrom (Seq (Star dot) (Cls symbol)) pw (fun _ => true)
  && ((8 <=? String.length pw)%nat
      && forallb passwordChar (list_ascii_of_string pw))))).
Proof.
  unfold test, passwordRegex. cbn [matchFrom].
  rewrite atLeast_to_end by (intros [|c s']; reflexivity).
  reflexivity.
Qed.

(** C9 (as the code has it): [passwordRegex] accepts a password exactly
    when it meets the rule of the specification (at least 8 characters
    with a lowercase letter, an uppercase letter, a digit and a symbol
    of [@$!%*?&]) and, besides, consists only of letters, digits and
    those symbols.  It rejects "short1!" and accepts "Valid1!x"; the
    signup handler answers 400 to every body whose password is
    "short1!", and never answers a body whose password is "Valid1!x"
    with the message about passwords. *)
Theorem C9_passwordRegex_accepts_iff :
  (forall pw : string,
     test passwordRegex pw = true <->
     specPasswordRule pw = true /\
     forallb passwordChar (list_ascii_of_string pw) = true) /\
  test passwordRegex "short1!" = false /\
  test passwordRegex "Valid1!x" = true /\
  (forall hashSync castEmail env docs e n,
     option_map status
       (sent (handleSignup hashSync castEmail env
                (mkBody e (Some "short1!") n) docs)) = Some 400) /\
  (forall hashSync castEmail env docs e n,
     ~ In (EvJson 400
             (Message "Password must have at least 8 characters and contain at least one number, one symbol, one lowercase and one uppercase letter."))
          (calls (handleSignup hashSync castEmail env
                    (mkBody e (Some "Valid1!x") n) docs))).
Proof.
  split; [|split; [reflexivity|split; [reflexivity|split]]].
  - intros pw. rewrite test_passwordRegex_unfold. unfold specPasswordRule.
    split.
    + intros H.
      repeat match type of H with
             | (_ && _) = true =>
                 apply andb_true_iff in H;
                 let H1 := fresh "L" in destruct H as [H1 H]
             end.
      apply look_sound in L, L0, L1, L2.
      rewrite L, L0, L1, L2, L3, H. auto.
    + intros [H Hall].
      repeat match type of H with
             | (_ && _) = true =>
                 apply andb_true_iff in H;
                 let H1 := fresh "L" in destruct H as [H H1]
             end.
      pose proof (forallb_passwordChar_dot _ Hall) as Hdot.
      rewrite !look_complete by assumption.
      rewrite H, Hall. reflexivity.
  - intros hashSync castEmail env docs e n.
    unfold handleSignup, signup. simpl.
    destruct (isEmptyString e || false || isEmptyString n); [reflexivity|].
    destruct (test emailRegex (toString e)); reflexivity.
  - intros hashSync castEmail env docs e n.
    unfold handleSignup, signup. simpl.
    destruct (isEmptyString e || false || isEmptyString n);
      [intros [H|[]]; discriminate|].
    destruct (test emailRegex (toString e)); simpl;
      [|intros [H|[]]; discriminate].
    unfold catch, signupThen, signupCreated, User_findOne, User_create,
      bcrypt_hashSync, res_json, next, throw, log, initState, bind, ret.
    simpl.
    destruct (findOneRejects env); simpl.
    + intros [H|[H|[]]]; discriminate.
    + destruct (match e with
                | Some e0 => findDoc (castEmail e0) docs
                | None => None
                end); simpl.
      * intros [H|[H|[H|[]]]]; discriminate.
      * destruct n as [nm|]; simpl;
          [destruct (createRejects env); simpl|];
          intros Hin;
          repeat (destruct Hin as [Hin|Hin]; [discriminate|]);
          exact Hin.
Qed.

(** ** The claims at concrete requests *)

(** C1, as stated, fails: after nine failed attempts on [alice], the
    tenth wrong password is compared against her hash, and the response
    that goes out is the 401 of the failure branch; the 423 is a second
    [res.json] on a response already sent. *)
Lemma C1_tenth_password_is_compared :
  ~ (option_map status
       (sent (handleLogin toyCompare toySign noCast (envAt 1000)
                (loginBody "user@x.com" "wrong")
                (loginRun toyCompare toySign noCast
                   (repeat (envAt 1000, loginBody "user@x.com" "wrong") 9)
                   [alice]))) = Some 423 /\
     forall d h,
       ~ In (EvCompare d h)
            (calls (handleLogin toyCompare toySign noCast (envAt 1000)
                      (loginBody "user@x.com" "wrong")
                      (loginRun toyCompare toySign noCast
                         (repeat (envAt 1000, loginBody "user@x.com" "wrong") 9)
                         [alice])))).
Proof.
  intros [_ H]. apply (H "wrong" "bcrypt:Secret1!x").
  vm_compute. auto.
Qed.

(** The tenth request of that run, call by call. *)
Lemma tenth_attempt_trace :
  handleLogin toyCompare toySign noCast (envAt 1000)
    (loginBody "user@x.com" "wrong")
    (loginRun toyCompare toySign noCast
       (repeat (envAt 1000, loginBody "user@x.com" "wrong") 9) [alice]) =
  mkState
    [mkUser "id1" "user@x.com" "bcrypt:Secret1!x" "Alice" 10 (Some 301000)]
    2
    (Some (mkResponse 401
       (Message "Please try again, the email and password did not matched")))
    (Some ERR_HTTP_HEADERS_SENT)
    [EvFindOne (Some "user@x.com");
     EvCompare "wrong" "bcrypt:Secret1!x";
     EvJson 401
       (Message "Please try again, the email and password did not matched");
     EvSave
       (mkUser "id1" "user@x.com" "bcrypt:Secret1!x" "Alice" 10 (Some 301000))
       true;
     EvJson 423
       (Message "Account locked due to too many failed login attempts. Please try again later.");
     EvNext ERR_HTTP_HEADERS_SENT].
Proof. vm_compute. reflexivity. Qed.

Lemma wrong_for_alice (t : Z) :
  wrongPasswordFor toyCompare "user@x.com" "bcrypt:Secret1!x"
    (envAt t, loginBody "user@x.com" "wrong").
Proof.
  repeat split. exists "wrong". repeat split. discriminate.
Defined.

Lemma C1_witness :
  findDoc "user@x.com"
    (db (handleLogin toyCompare toySign noCast (envAt 1000)
           (loginBody "user@x.com" "wrong")
           (loginRun toyCompare toySign noCast
              (repeat (envAt 1000, loginBody "user@x.com" "wrong") 9)
              [alice]))) =
  Some (mkUser "id1" "user@x.com" "bcrypt:Secret1!x" "Alice" 10 (Some 301000)).
Proof.
  refine (proj1 (proj2
    (C1_tenth_compared_eleventh_locked toyCompare toySign noCast
       [alice] "user@x.com" alice
       (repeat (envAt 1000, loginBody "user@x.com" "wrong") 9)
       (envAt 1000) (loginBody "user@x.com" "wrong")
       _ eq_refl eq_refl eq_refl eq_refl _ (wrong_for_alice 1000)))).
  - discriminate.
  - repeat constructor; apply wrong_for_alice.
Defined.

(** C2 at the instant of expiry.  The account was locked until 1000
    with ten failures counted, and the clock reads 1000: [isLocked]
    lets the request through, the stale-lock step leaves the count at
    10, and one wrong password makes it 11 and locks the account anew. *)
Theorem C2_no_reset_at_expiry :
  handleLogin toyCompare toySign noCast (envAt 1000)
    (loginBody "user@x.com" "wrong")
    [mkUser "id1" "user@x.com" "bcrypt:Secret1!x" "Alice" 10 (Some 1000)] =
  mkState
    [mkUser "id1" "user@x.com" "bcrypt:Secret1!x" "Alice" 11 (Some 301000)]
    4
    (Some (mkResponse 401
       (Message "Please try again, the email and password did not matched")))
    (Some ERR_HTTP_HEADERS_SENT)
    [EvFindOne (Some "user@x.com");
     EvCompare "wrong" "bcrypt:Secret1!x";
     EvJson 401
       (Message "Please try again, the email and password did not matched");
     EvSave
       (mkUser "id1" "user@x.com" "bcrypt:Secret1!x" "Alice" 11 (Some 301000))
       true;
     EvJson 423
       (Message "Account locked due to too many failed login attempts. Please try again later.");
     EvNext ERR_HTTP_HEADERS_SENT].
Proof. vm_compute. reflexivity. Qed.

(** One millisecond later the same request meets a count reset to 0. *)
Lemma reset_after_expiry :
  db (handleLogin toyCompare toySign noCast (envAt 1001)
        (loginBody "user@x.com" "wrong")
        [mkUser "id1" "user@x.com" "bcrypt:Secret1!x" "Alice" 10 (Some 1000)]) =
  [mkUser "id1" "user@x.com" "bcrypt:Secret1!x" "Alice" 1 None].
Proof. vm_compute. reflexivity. Qed.

Lemma C3_witness :
  sent (handleLogin toyCompare toySign noCast (envAt 1000)
          (loginBody "user@x.com" "Secret1!x")
          [mkUser "id1" "user@x.com" "bcrypt:Secret1!x" "Alice" 10 (Some 2000)]) =
  Some (mkResponse 423 (Message "Account locked. Please try again later.")).
Proof.
  refine (proj1
    (C3_locked_account_untouched toyCompare toySign noCast (envAt 1000)
       [mkUser "id1" "user@x.com" "bcrypt:Secret1!x" "Alice" 10 (Some 2000)]
       "user@x.com" (Some "Secret1!x") None
       (mkUser "id1" "user@x.com" "bcrypt:Secret1!x" "Alice" 10 (Some 2000))
       2000 _ _ eq_refl eq_refl eq_refl _)).
  - discriminate.
  - discriminate.
  - simpl. lia.
Defined.

Lemma C4_witness :
  exists user2,
    failedLoginAttempts user2 = 9 + 1 /\
    lockUntil user2 = Some (1000 + 300000) /\
    In (EvSave user2 true)
       (calls (handleLogin toyCompare toySign noCast (envAt 1000)
                 (loginBody "user@x.com" "wrong")
                 [set_failedLoginAttempts 9 alice])).
Proof.
  destruct (C4_failed_attempt_counted toyCompare toySign noCast (envAt 1000)
              [set_failedLoginAttempts 9 alice] "user@x.com" "wrong" None
              (set_failedLoginAttempts 9 alice)
              (set_failedLoginAttempts 9 alice)
              (initState [set_failedLoginAttempts 9 alice])
              (initState [set_failedLoginAttempts 9 alice]))
    as (_ & user2 & Hcount & Hlock & _ & _ & Hsave & _);
    [first [reflexivity | discriminate] .. | ].
  exists user2. split; [exact Hcount|]. split; [|exact Hsave].
  apply Hlock. simpl. lia.
Defined.

Lemma C5_witness :
  sent (handleLogin toyCompare toySign noCast (envAt 1000)
          (loginBody "user@x.com" "Secret1!x")
          [mkUser "id1" "user@x.com" "bcrypt:Secret1!x" "Alice" 10 (Some 900)]) =
  Some (mkResponse 200 (AuthToken "jwt:id1")).
Proof.
  destruct (C5_successful_login_resets toyCompare toySign noCast (envAt 1000)
              [mkUser "id1" "user@x.com" "bcrypt:Secret1!x" "Alice" 10 (Some 900)]
              "user@x.com" "Secret1!x" None
              (mkUser "id1" "user@x.com" "bcrypt:Secret1!x" "Alice" 10 (Some 900))
              (mkState
                 [mkUser "id1" "user@x.com" "bcrypt:Secret1!x" "Alice" 10 (Some 900)]
                 1 None None []))
    as (saved & _ & _ & _ & _ & _ & Hsent & _);
    [first [reflexivity | discriminate] .. | exact Hsent].
Defined.

(** C7, as stated, fails: an unknown email and a wrong password are
    both answered 401, but the bodies are not the same, and the first
    names the check that failed. *)
Lemma C7_bodies_tell_apart :
  sent (handleLogin toyCompare toySign noCast (envAt 1000)
          (loginBody "nobody@x.com" "wrong") [alice]) =
    Some (mkResponse 401 (Message "User not found.")) /\
  sent (handleLogin toyCompare toySign noCast (envAt 1000)
          (loginBody "user@x.com" "wrong") [alice]) =
    Some (mkResponse 401
      (Message "Please try again, the email and password did not matched")) /\
  sent (handleLogin toyCompare toySign noCast (envAt 1000)
          (loginBody "nobody@x.com" "wrong") [alice]) <>
  sent (handleLogin toyCompare toySign noCast (envAt 1000)
          (loginBody "user@x.com" "wrong") [alice]).
Proof.
  split; [reflexivity|]. split; [reflexivity|].
  vm_compute. discriminate.
Qed.

Lemma C7_witness :
  option_map status
    (sent (handleLogin toyCompare toySign noCast (envAt 1000)
             (loginBody "nobody@x.com" "wrong") [alice])) =
  option_map status
    (sent (handleLogin toyCompare toySign noCast (envAt 1000)
             (loginBody "user@x.com" "wrong") [alice])).
Proof.
  refine (proj1 (proj2 (proj2
    (C7_same_status_different_body toyCompare toySign noCast
       (envAt 1000) (envAt 1000) [alice]
       "nobody@x.com" "user@x.com" "wrong" (Some "wrong") None None
       alice (initState [alice])
       _ _ eq_refl eq_refl _ _ eq_refl eq_refl eq_refl eq_refl))));
    discriminate.
Defined.

(** C8 at a store that rejects the save.  With the right password the
    caller still gets 200 and a token, although the reset of the
    counter was not written; with a wrong one the caller gets the 401,
    although the failure was not counted.  In both cases the error
    handed to [next], if any, is not the store's. *)
Theorem C8_rejected_save_unnoticed :
  handleLogin toyCompare toySign noCast (envSaveFails 1000)
    (loginBody "user@x.com" "Secret1!x") [set_failedLoginAttempts 3 alice] =
  mkState
    [set_failedLoginAttempts 3 alice] 0
    (Some (mkResponse 200 (AuthToken "jwt:id1")))
    None
    [EvFindOne (Some "user@x.com");
     EvCompare "Secret1!x" "bcrypt:Secret1!x";
     EvSave alice false;
     EvSign (mkPayload "id1" "user@x.com" "Alice");
     EvJson 200 (AuthToken "jwt:id1")] /\
  handleLogin toyCompare toySign noCast (envSaveFails 1000)
    (loginBody "user@x.com" "wrong") [set_failedLoginAttempts 3 alice] =
  mkState
    [set_failedLoginAttempts 3 alice] 0
    (Some (mkResponse 401
       (Message "Please try again, the email and password did not matched")))
    (Some ERR_HTTP_HEADERS_SENT)
    [EvFindOne (Some "user@x.com");
     EvCompare "wrong" "bcrypt:Secret1!x";
     EvJson 401
       (Message "Please try again, the email and password did not matched");
     EvSave (set_failedLoginAttempts 4 alice) false;
     EvJson 401 (Message "Invalid username or password");
     EvNext ERR_HTTP_HEADERS_SENT].
Proof. split; vm_compute; reflexivity. Qed.

(** C9, as stated, fails: "Valid1!x#" has nine characters, among them
    a lowercase letter, an uppercase letter, a digit and the symbol
    [!], and the pattern rejects it, [#] being outside the class; the
    signup handler answers it 400. *)
Lemma C9_rule_met_but_rejected :
  specPasswordRule "Valid1!x#" = true /\
  test passwordRegex "Valid1!x#" = false /\
  sent (handleSignup toyHash noCast (envAt 1000)
          (mkBody (Some "bob@x.com") (Some "Valid1!x#") (Some "Bob")) [alice]) =
  Some (mkResponse 400
    (Message "Password must have at least 8 characters and contain at least one number, one symbol, one lowercase and one uppercase letter.")).
Proof. repeat split; reflexivity. Qed.

Lemma C10_witness :
  sent (handleLogin toyCompare toySign noCast (envAt 1000)
          (mkBody None (Some "Secret1!x") None) [alice]) =
  Some (mkResponse 401 (Message "User not found.")).
Proof.
  refine (proj1 (proj2 (proj2
    (C10_absent_field_passes_check toyCompare toySign noCast (envAt 1000)
       [alice] None (Some "Secret1!x") None)) eq_refl _ eq_refl)).
  discriminate.
Defined.

(** ** The further properties at concrete requests *)

Lemma signup_creates_account_witness :
  sent (handleSignup toyHash noCast (envAt 1000)
          (mkBody (Some "bob@x.com") (Some "Valid1!x") (Some "Bob"))
          [alice]) =
  Some (mkResponse 201 (CreatedUser "bob@x.com" "Bob" "id2")).
Proof.
  refine (proj1
    (signup_creates_account toyHash noCast (envAt 1000) [alice]
       "bob@x.com" "Valid1!x" "Bob"
       eq_refl eq_refl _ eq_refl eq_refl eq_refl)).
  discriminate.
Defined.

Lemma signup_duplicate_email_rejected_witness :
  sent (handleSignup toyHash noCast (envAt 1000)
          (mkBody (Some "user@x.com") (Some "Valid1!x") (Some "Al"))
          [alice]) =
  Some (mkResponse 400 (Message "User already exists.")).
Proof.
  refine (proj1
    (signup_duplicate_email_rejected toyHash noCast (envAt 1000) [alice]
       "user@x.com" "Valid1!x" (Some "Al") alice
       eq_refl eq_refl _ eq_refl eq_refl)).
  discriminate.
Defined.

Lemma signup_absent_field_rejected_witness :
  option_map status
    (sent (handleSignup toyHash noCast (envAt 1000)
             (mkBody None (Some "Valid1!x") (Some "Bob")) [alice])) =
  Some 400.
Proof.
  exact (proj1
    (signup_absent_field_rejected toyHash noCast (envAt 1000) [alice]
       None (Some "Valid1!x") (Some "Bob") (or_introl eq_refl))).
Defined.

Lemma signup_keeps_emails_unique_witness :
  NoDup (map email
           (db (handleSignup toyHash noCast (envAt 1000)
                  (mkBody (Some "bob@x.com") (Some "Valid1!x") (Some "Bob"))
                  [alice]))).
Proof.
  apply (signup_keeps_emails_unique toyHash noCast).
  repeat constructor. intros [].
Defined.

Lemma login_after_signup_succeeds_witness :
  sent (handleLogin toyCompare toySign noCast (envAt 2000)
          (loginBody "bob@x.com" "Valid1!x")
          (db (handleSignup toyHash noCast (envAt 1000)
                 (mkBody (Some "bob@x.com") (Some "Valid1!x") (Some "Bob"))
                 [alice]))) =
  Some (mkResponse 200 (AuthToken "jwt:id2")).
Proof.
  refine (proj1
    (login_after_signup_succeeds toyCompare toyHash toySign noCast
       (envAt 1000) (envAt 2000) [alice] "bob@x.com" "Valid1!x" "Bob" None
       eq_refl eq_refl _ eq_refl eq_refl eq_refl eq_refl eq_refl)).
  discriminate.
Defined.

Lemma login_keeps_lockout_consistent_witness :
  Forall (fun d => 0 <= failedLoginAttempts d /\
                   (lockUntil d <> None -> 10 <= failedLoginAttempts d))
    (db (handleLogin toyCompare toySign noCast (envAt 1000)
           (loginBody "user@x.com" "wrong")
           [set_failedLoginAttempts 9 alice])).
Proof.
  apply (login_keeps_lockout_consistent toyCompare toySign noCast).
  repeat constructor; simpl; [lia | congruence].
Defined.

Lemma login_touches_only_found_counters_witness :
  map (fun d => (_id d, email d, password d, name d))
    (db (handleLogin toyCompare toySign noCast (envAt 1000)
           (loginBody "user@x.com" "wrong") [alice])) =
  map (fun d => (_id d, email d, password d, name d)) [alice].
Proof.
  refine (proj1
    (login_touches_only_found_counters toyCompare toySign noCast
       (envAt 1000) (loginBody "user@x.com" "wrong") [alice] _)).
  repeat constructor. intros [].
Defined.

Lemma locked_account_frozen_witness :
  loginRun toyCompare toySign noCast
    [(envAt 1000, loginBody "user@x.com" "wrong");
     (envAt 1500, loginBody "user@x.com" "Secret1!x");
     (envAt 1999, mkBody (Some "user@x.com") None None)]
    [mkUser "id1" "user@x.com" "bcrypt:Secret1!x" "Alice" 10 (Some 2000)] =
  [mkUser "id1" "user@x.com" "bcrypt:Secret1!x" "Alice" 10 (Some 2000)].
Proof.
  apply (locked_account_frozen toyCompare toySign noCast
           [(envAt 1000, loginBody "user@x.com" "wrong");
            (envAt 1500, loginBody "user@x.com" "Secret1!x");
            (envAt 1999, mkBody (Some "user@x.com") None None)]
           [mkUser "id1" "user@x.com" "bcrypt:Secret1!x" "Alice" 10 (Some 2000)]
           "user@x.com"
           (mkUser "id1" "user@x.com" "bcrypt:Secret1!x" "Alice" 10 (Some 2000))
           2000 eq_refl eq_refl).
  repeat constructor.
Defined.

Lemma token_only_for_matching_password_witness :
  exists e p user,
    Some "user@x.com" = Some e /\ Some "Secret1!x" = Some p /\
    findDoc (noCast e) [alice] = Some user /\
    toyCompare p (password user) = true /\
    (forall l, lockUntil user = Some l -> l <= 1000).
Proof.
  exact (token_only_for_matching_password toyCompare toySign noCast
           (envAt 1000) (loginBody "user@x.com" "Secret1!x") [alice]
           eq_refl).
Defined.

Lemma login_without_password_not_counted_witness :
  db (handleLogin toyCompare toySign noCast (envAt 1000)
        (mkBody (Some "user@x.com") None None)
        [set_failedLoginAttempts 9 alice]) =
  [set_failedLoginAttempts 9 alice].
Proof.
  refine (proj1 (proj2 (proj2
    (login_without_password_not_counted toyCompare toySign noCast
       (envAt 1000) [set_failedLoginAttempts 9 alice] "user@x.com" None
       (set_failedLoginAttempts 9 alice)
       (initState [set_failedLoginAttempts 9 alice])
       _ eq_refl eq_refl eq_refl)))).
  discriminate.
Defined.

Lemma expired_lock_restarts_count_witness :
  findDoc "user@x.com"
    (db (handleLogin toyCompare toySign noCast (envAt 1000)
           (loginBody "user@x.com" "wrong")
           [mkUser "id1" "user@x.com" "bcrypt:Secret1!x" "Alice" 10 (Some 900)])) =
  Some (mkUser "id1" "user@x.com" "bcrypt:Secret1!x" "Alice" 1 None).
Proof.
  refine (expired_lock_restarts_count toyCompare toySign noCast
            (envAt 1000)
            [mkUser "id1" "user@x.com" "bcrypt:Secret1!x" "Alice" 10 (Some 900)]
            "user@x.com" "wrong" None
            (mkUser "id1" "user@x.com" "bcrypt:Secret1!x" "Alice" 10 (Some 900))
            900 _ _ eq_refl eq_refl eq_refl eq_refl _ _ eq_refl);
    first [discriminate | simpl; lia].
Defined.

Lemma success_restarts_count_witness :
  findDoc "user@x.com"
    (loginRun toyCompare toySign noCast
       [(envAt 1100, loginBody "user@x.com" "wrong");
        (envAt 1200, loginBody "user@x.com" "wrong")]
       (db (handleLogin toyCompare toySign noCast (envAt 1000)
              (loginBody "user@x.com" "Secret1!x")
              [set_failedLoginAttempts 7 alice]))) =
  Some (mkUser "id1" "user@x.com" "bcrypt:Secret1!x" "Alice" 2 None).
Proof.
  refine (success_restarts_count toyCompare toySign noCast (envAt 1000)
            [set_failedLoginAttempts 7 alice] "user@x.com" "Secret1!x" None
            (set_failedLoginAttempts 7 alice)
            (initState [set_failedLoginAttempts 7 alice])
            [(envAt 1100, loginBody "user@x.com" "wrong");
             (envAt 1200, loginBody "user@x.com" "wrong")]
            _ _ eq_refl eq_refl eq_refl eq_refl eq_refl _ _).
  - discriminate.
  - discriminate.
  - simpl. lia.
  - repeat constructor; apply wrong_for_alice.
Defined.

Lemma signup_without_name_creates_nothing_witness :
  db (handleSignup toyHash noCast (envAt 1000)
        (mkBody (Some "bob@x.com") (Some "Valid1!x") None) [alice]) =
  [alice].
Proof.
  exact (proj1 (proj2 (proj2
    (signup_without_name_creates_nothing toyHash noCast (envAt 1000)
       [alice] "bob@x.com" "Valid1!x" eq_refl eq_refl eq_refl eq_refl)))).
Defined.
